(** * mod_accounting: per-request resource accounting for Apache 2

    A shallow embedding of [mod_accounting.c]: the two delta functions
    [time_difference] and [block_difference], and the two hooks
    [module_accounting_start] and [module_accounting_stop], over an explicit
    model of the request graph ([main]/[prev]/[next] pointers and one notes
    table per request), of the server log, and of the system calls.

    Integer model.  [long], [long long], [time_t] and [suseconds_t] are the
    64-bit signed integers of the LP64 hosts the module is built for.  They
    are carried as [Z]; every arithmetic result of the C code is reduced into
    the signed 64-bit range by [wrap64]: an overflowing signed operation is
    taken to wrap around in two's complement, which is what the compiled
    code does on these hosts. *)

From Stdlib Require Import ZArith Lia List.
From stdpp Require Import gmap strings list fin_maps relations pretty.

Local Open Scope Z_scope.

(* ===================================================================== *)
(** ** Machine integers *)
(* ===================================================================== *)

Definition LONG_MIN : Z := - 2 ^ 63.
Definition LONG_MAX : Z := 2 ^ 63 - 1.

(** A value that a [long] can hold. *)
Definition in_long (z : Z) : Prop := LONG_MIN <= z <= LONG_MAX.

(** Result of a signed 64-bit operation whose exact value is [z]. *)
Definition wrap64 (z : Z) : Z := (z + 2 ^ 63) mod 2 ^ 64 - 2 ^ 63.

(* ===================================================================== *)
(** ** Data: [struct timeval], [struct rusage], [acc_data] *)
(* ===================================================================== *)

Record timeval := Timeval { tv_sec : Z; tv_usec : Z }.

(** The four members of [struct rusage] the module reads. *)
Record rusage := Rusage {
  ru_utime : timeval;
  ru_stime : timeval;
  ru_inblock : Z;
  ru_oublock : Z
}.

(** The reference (begin) values; [zero] is the terminating byte. *)
Record acc_data := AccData {
  begin_time : timeval;
  begin_own_usage : rusage;
  begin_child_usage : rusage;
  zero : Z
}.

Definition timeval_zero : timeval := Timeval 0 0.
Definition rusage_zero : rusage := Rusage timeval_zero timeval_zero 0 0.

(* ===================================================================== *)
(** ** The server log *)
(* ===================================================================== *)

Inductive log_level := APLOG_ERR | APLOG_DEBUG.

(** One constructor per format string handed to [ap_log_error], with the
    arguments it is given. *)
Inductive log_msg :=
  | MsgText (errmsg : string)
  | MsgTimetraveling (begin_ end_ : timeval)
  | MsgNegativeBlockcount (begin_ end_ : Z)
  | MsgDebugTime (msg : string) (time : timeval)
  | MsgDebugBlocks (msg : string) (num : Z).

Definition log_entry : Type := log_level * log_msg.
Definition server_log : Type := list log_entry.

(** [ACC_LOG_REQ_ERROR(errmsg)] *)
Definition ACC_LOG_REQ_ERROR (errmsg : string) (lg : server_log) : server_log :=
  lg ++ [(APLOG_ERR, MsgText errmsg)].

(** [ACC_LOG_DEBUG_TIME(msg, time)]: [DEBUG] is defined (as 0), so the
    [#ifdef DEBUG] branch is the one compiled and the macro logs at debug
    level. *)
Definition ACC_LOG_DEBUG_TIME (msg : string) (time : timeval)
    (lg : server_log) : server_log :=
  lg ++ [(APLOG_DEBUG, MsgDebugTime msg time)].

(** [ACC_LOG_DEBUG_BLOCKS(msg, num)] *)
Definition ACC_LOG_DEBUG_BLOCKS (msg : string) (num : Z)
    (lg : server_log) : server_log :=
  lg ++ [(APLOG_DEBUG, MsgDebugBlocks msg num)].

(** The error-level entries of a log: the anomalies. *)
Definition is_err (e : log_entry) : bool :=
  match fst e with APLOG_ERR => true | APLOG_DEBUG => false end.

Definition anomalies (lg : server_log) : list log_entry := List.filter is_err lg.

(* ===================================================================== *)
(** ** The delta functions *)
(* ===================================================================== *)

(** The sanity check of [time_difference]: [end] lies before [begin]. *)
Definition timetravel (begin_ end_ : timeval) : bool :=
  (tv_sec end_ <? tv_sec begin_)
  || ((tv_sec end_ =? tv_sec begin_) && (tv_usec end_ <? tv_usec begin_)).

Definition time_difference (begin_ end_ : timeval) (lg : server_log)
    : Z * server_log :=
  if timetravel begin_ end_ then
    (0, lg ++ [(APLOG_ERR, MsgTimetraveling begin_ end_)])
  else
    let lg := ACC_LOG_DEBUG_TIME "time_difference:begin" begin_ lg in
    let lg := ACC_LOG_DEBUG_TIME "time_difference:end" end_ lg in
    let retval := wrap64 (tv_sec end_ - tv_sec begin_) in
    let retval := wrap64 (retval * 1000000) in
    let retval := wrap64 (retval + wrap64 (tv_usec end_ - tv_usec begin_)) in
    (retval, lg).

Definition block_difference (begin_ end_ : Z) (lg : server_log)
    : Z * server_log :=
  if begin_ >? end_ then
    (0, lg ++ [(APLOG_ERR, MsgNegativeBlockcount begin_ end_)])
  else
    let lg := ACC_LOG_DEBUG_BLOCKS "block_difference:begin" begin_ lg in
    let lg := ACC_LOG_DEBUG_BLOCKS "block_difference:end" end_ lg in
    let retval := wrap64 (end_ - begin_) in
    (retval, lg).

(** The exact (unbounded) microsecond difference. *)
Definition exact_usec (begin_ end_ : timeval) : Z :=
  (tv_sec end_ - tv_sec begin_) * 1000000 + (tv_usec end_ - tv_usec begin_).

(** [end >= begin], whole seconds first, microseconds as tiebreak. *)
Definition lex_le (begin_ end_ : timeval) : Prop :=
  tv_sec begin_ < tv_sec end_
  \/ (tv_sec begin_ = tv_sec end_ /\ tv_usec begin_ <= tv_usec end_).

(** [end < begin] in the same order. *)
Definition lex_lt (end_ begin_ : timeval) : Prop :=
  tv_sec end_ < tv_sec begin_
  \/ (tv_sec end_ = tv_sec begin_ /\ tv_usec end_ < tv_usec begin_).

(* ===================================================================== *)
(** ** Requests, notes tables and the state of the server *)
(* ===================================================================== *)

(** Address of a [request_rec]; a null pointer is [None]. *)
Definition ptr : Type := positive.

(** A value of the notes table.  The table holds [char*]; the module stores
    either the text written by [apr_psprintf] or, under the reserved key, the
    address of an [acc_data] block cast to [char*]. *)
Inductive note :=
  | NoteText (s : string)
  | NoteData (d : acc_data).

(** The members of [request_rec] the module touches.  Apache creates one
    notes table per [request_rec], so the table is a member of its node. *)
Record request_rec := RequestRec {
  main : option ptr;
  prev : option ptr;
  next : option ptr;
  notes : gmap string note
}.

Record world := World {
  requests : gmap ptr request_rec;
  log : server_log
}.

(** Key values for use in the [request_rec->notes] table. *)
Definition notes_key_internal : string := "ACC_INTERNAL".
Definition notes_key_time : string := "ACC_time".
Definition notes_key_utime : string := "ACC_utime".
Definition notes_key_stime : string := "ACC_stime".
Definition notes_key_cutime : string := "ACC_cutime".
Definition notes_key_cstime : string := "ACC_cstime".
Definition notes_key_inblock : string := "ACC_inblock".
Definition notes_key_oublock : string := "ACC_oublock".
Definition notes_key_cinblock : string := "ACC_cinblock".
Definition notes_key_coublock : string := "ACC_coublock".

(** The nine keys [module_accounting_stop] writes, in the order it writes
    them. *)
Definition metric_keys : list string :=
  [ notes_key_time; notes_key_utime; notes_key_stime;
    notes_key_inblock; notes_key_oublock;
    notes_key_cutime; notes_key_cstime;
    notes_key_cinblock; notes_key_coublock ].

(** Apache's [DECLINED] (httpd.h). *)
Definition DECLINED : Z := -1.

(** [apr_psprintf(pool, "%ld", z)]: the decimal text of a [long]. *)
Definition fmt_ld (z : Z) : string := pretty z.
Global Arguments fmt_ld : simpl never.

(* ===================================================================== *)
(** ** A state and error monad for the hooks *)
(* ===================================================================== *)

(** What takes a run out of the model: a loop that does not end within the
    fuel, a dereferenced address that holds no request, and a note under the
    reserved key that is not an [acc_data] block. *)
Inductive fault := Diverged | BadPointer | BadCast.

Definition M (A : Type) : Type := world → fault + (A * world).

Global Instance M_ret : MRet M := λ A a w, inr (a, w).
Global Instance M_bind : MBind M := λ A B f m w,
  match m w with
  | inl e => inl e
  | inr (a, w') => f a w'
  end.

Definition fail {A} (e : fault) : M A := λ _, inl e.

(** [*p] for a request pointer. *)
Definition deref (p : ptr) : M request_rec := λ w,
  match requests w !! p with
  | Some r => inr (r, w)
  | None => inl BadPointer
  end.

(** Run a logging function on the server log. *)
Definition with_log {A} (f : server_log → A * server_log) : M A := λ w,
  let '(a, lg) := f (log w) in inr (a, World (requests w) lg).

Definition do_log (f : server_log → server_log) : M unit :=
  with_log (λ lg, (tt, f lg)).

(** [apr_table_get(p->notes, key)] *)
Definition apr_table_get (p : ptr) (key : string) : M (option note) :=
  r ← deref p; mret (notes r !! key).

(** The request [r] with [n] for its notes table. *)
Definition with_notes (r : request_rec) (n : gmap string note) : request_rec :=
  RequestRec (main r) (prev r) (next r) n.

(** [apr_table_setn(p->notes, key, val)] *)
Definition apr_table_setn (p : ptr) (key : string) (val : note) : M unit := λ w,
  match requests w !! p with
  | Some r =>
      let r' := with_notes r (<[key := val]> (notes r)) in
      inr (tt, World (<[p := r']> (requests w)) (log w))
  | None => inl BadPointer
  end.

(** [while (p->field) p = p->field;] with a bound on the iterations. *)
Fixpoint while_follow (fuel : nat) (field : request_rec → option ptr) (p : ptr)
    : M ptr :=
  match fuel with
  | O => fail Diverged
  | S fuel =>
      r ← deref p;
      match field r with
      | None => mret p
      | Some q => while_follow fuel field q
      end
  end.

(* ===================================================================== *)
(** ** System calls *)
(* ===================================================================== *)

(** What the three queries of one hook invocation answer: [None] is the
    return value -1, in which case the buffer is not written. *)
Record syscalls := Syscalls {
  gettimeofday : option timeval;
  getrusage_self : option rusage;
  getrusage_children : option rusage
}.

(** A query into a buffer holding [buf]: the new content of the buffer, and
    the error logged on failure. *)
Definition query {A} (answer : option A) (buf : A) (errmsg : string) : M A :=
  match answer with
  | Some v => mret v
  | None => do_log (ACC_LOG_REQ_ERROR errmsg);; mret buf
  end.

(* ===================================================================== *)
(** ** Start accounting *)
(* ===================================================================== *)

(** [fresh] is the content of the block [apr_palloc] returns for [data];
    [apr_palloc] does not clear what it hands out. *)
Definition module_accounting_start (fuel : nat) (fresh : acc_data)
    (sys : syscalls) (r : ptr) : M Z :=
  (* Determine the main request *)
  initial ← while_follow fuel main r;
  (* Determine the first request *)
  initial ← while_follow fuel prev initial;
  (* Check if we've already got reference (begin) timings *)
  found ← apr_table_get initial notes_key_internal;
  match found with
  | Some _ => mret DECLINED
  | None =>
      (* Allocate internal message *)
      let data := fresh in
      t ← query (gettimeofday sys) (begin_time data)
            "Request for (begin) time of day failed";
      let data := AccData t (begin_own_usage data) (begin_child_usage data)
                          (zero data) in
      u ← query (getrusage_self sys) (begin_own_usage data)
            "Request for (begin) resource usage failed";
      let data := AccData (begin_time data) u (begin_child_usage data)
                          (zero data) in
      c ← query (getrusage_children sys) (begin_child_usage data)
            "Request for children's (begin) resource usage failed";
      let data := AccData (begin_time data) (begin_own_usage data) c
                          (zero data) in
      (* Add zero padding to structure *)
      let data := AccData (begin_time data) (begin_own_usage data)
                          (begin_child_usage data) 0 in
      do_log (ACC_LOG_DEBUG_TIME "accounting_start:data->begin_time"
                (begin_time data));;
      do_log (ACC_LOG_DEBUG_TIME "accounting_start:data->begin_own_usage.ru_utime"
                (ru_utime (begin_own_usage data)));;
      do_log (ACC_LOG_DEBUG_TIME "accounting_start:data->begin_own_usage.ru_stime"
                (ru_stime (begin_own_usage data)));;
      do_log (ACC_LOG_DEBUG_BLOCKS "accounting_start:data->begin_own_usage.ru_inblock"
                (ru_inblock (begin_own_usage data)));;
      do_log (ACC_LOG_DEBUG_BLOCKS "accounting_start:data->begin_own_usage.ru_oublock"
                (ru_oublock (begin_own_usage data)));;
      do_log (ACC_LOG_DEBUG_TIME "accounting_start:data->begin_child_usage.ru_utime"
                (ru_utime (begin_child_usage data)));;
      do_log (ACC_LOG_DEBUG_TIME "accounting_start:data->begin_child_usage.ru_stime"
                (ru_stime (begin_child_usage data)));;
      do_log (ACC_LOG_DEBUG_BLOCKS "accounting_start:data->begin_child_usage.ru_inblock"
                (ru_inblock (begin_child_usage data)));;
      do_log (ACC_LOG_DEBUG_BLOCKS "accounting_start:data->begin_child_usage.ru_oublock"
                (ru_oublock (begin_child_usage data)));;
      (* Add this data as to the notes field of request_rec *)
      apr_table_setn initial notes_key_internal (NoteData data);;
      (* We're not a final handler *)
      mret DECLINED
  end.

(* ===================================================================== *)
(** ** Stop accounting *)
(* ===================================================================== *)

(** The automatic variables of [module_accounting_stop], with the content
    the stack frame starts with (they have no initialiser). *)
Record locals := Locals {
  end_time : timeval;
  end_own_usage : rusage;
  end_child_usage : rusage
}.

(** The begin entries of the debug block of [module_accounting_stop]. *)
Definition debug_stop_begin (data : acc_data) : M unit :=
  do_log (ACC_LOG_DEBUG_TIME "accounting_stop:data->begin_time"
            (begin_time data));;
  do_log (ACC_LOG_DEBUG_TIME "accounting_stop:data->begin_own_usage.ru_utime"
            (ru_utime (begin_own_usage data)));;
  do_log (ACC_LOG_DEBUG_TIME "accounting_stop:data->begin_own_usage.ru_stime"
            (ru_stime (begin_own_usage data)));;
  do_log (ACC_LOG_DEBUG_BLOCKS "accounting_stop:data->begin_own_usage.ru_inblock"
            (ru_inblock (begin_own_usage data)));;
  do_log (ACC_LOG_DEBUG_BLOCKS "accounting_stop:data->begin_own_usage.ru_oublock"
            (ru_oublock (begin_own_usage data)));;
  do_log (ACC_LOG_DEBUG_TIME "accounting_stop:data->begin_child_usage.ru_utime"
            (ru_utime (begin_child_usage data)));;
  do_log (ACC_LOG_DEBUG_TIME "accounting_stop:data->begin_child_usage.ru_stime"
            (ru_stime (begin_child_usage data)));;
  do_log (ACC_LOG_DEBUG_BLOCKS "accounting_stop:data->begin_child_usage.ru_inblock"
            (ru_inblock (begin_child_usage data)));;
  do_log (ACC_LOG_DEBUG_BLOCKS "accounting_stop:data->begin_child_usage.ru_oublock"
            (ru_oublock (begin_child_usage data))).

(** The end entries of the same block. *)
Definition debug_stop_end (l : locals) : M unit :=
  do_log (ACC_LOG_DEBUG_TIME "accounting_stop:end_time" (end_time l));;
  do_log (ACC_LOG_DEBUG_TIME "accounting_stop:end_own_usage.ru_utime"
            (ru_utime (end_own_usage l)));;
  do_log (ACC_LOG_DEBUG_TIME "accounting_stop:end_own_usage.ru_stime"
            (ru_stime (end_own_usage l)));;
  do_log (ACC_LOG_DEBUG_BLOCKS "accounting_stop:end_own_usage.ru_inblock"
            (ru_inblock (end_own_usage l)));;
  do_log (ACC_LOG_DEBUG_BLOCKS "accounting_stop:end_own_usage.ru_oublock"
            (ru_oublock (end_own_usage l)));;
  do_log (ACC_LOG_DEBUG_TIME "accounting_stop:end_child_usage.ru_utime"
            (ru_utime (end_child_usage l)));;
  do_log (ACC_LOG_DEBUG_TIME "accounting_stop:end_child_usage.ru_stime"
            (ru_stime (end_child_usage l)));;
  do_log (ACC_LOG_DEBUG_BLOCKS "accounting_stop:end_child_usage.ru_inblock"
            (ru_inblock (end_child_usage l)));;
  do_log (ACC_LOG_DEBUG_BLOCKS "accounting_stop:end_child_usage.ru_oublock"
            (ru_oublock (end_child_usage l))).

(** [frame] is the initial content of the automatic variables.  The call
    [wait4(-1, NULL, WNOHANG, NULL)] returns at once and its result is
    dropped; what it changes is what the later [getrusage] answers, which is
    part of [sys]. *)
Definition module_accounting_stop (fuel : nat) (frame : locals)
    (sys : syscalls) (r : ptr) : M Z :=
  (* Determine the main request *)
  initial ← while_follow fuel main r;
  let last := initial in
  (* Determine the first request *)
  initial ← while_follow fuel prev initial;
  (* Determine the last request *)
  last ← while_follow fuel next last;
  (* Get the reference (begin) data *)
  found ← apr_table_get initial notes_key_internal;
  match found with
  | None =>
      do_log (ACC_LOG_REQ_ERROR "Failed to fetch internal data!");;
      mret DECLINED
  | Some (NoteText _) => fail BadCast
  | Some (NoteData data) =>
      t ← query (gettimeofday sys) (end_time frame)
            "Request for (end) time of day failed";
      u ← query (getrusage_self sys) (end_own_usage frame)
            "Request for (end) resource usage failed";
      c ← query (getrusage_children sys) (end_child_usage frame)
            "Request for children's (end) resource usage failed";
      let l := Locals t u c in
      debug_stop_begin data;;
      debug_stop_end l;;
      (* Set the time difference between start and stop *)
      d ← with_log (time_difference (begin_time data) (end_time l));
      apr_table_setn last notes_key_time (NoteText (fmt_ld d));;
      (* Set the accumilated user time *)
      d ← with_log (time_difference (ru_utime (begin_own_usage data))
                                    (ru_utime (end_own_usage l)));
      apr_table_setn last notes_key_utime (NoteText (fmt_ld d));;
      (* Set the accumilated system time *)
      d ← with_log (time_difference (ru_stime (begin_own_usage data))
                                    (ru_stime (end_own_usage l)));
      apr_table_setn last notes_key_stime (NoteText (fmt_ld d));;
      (* Set the accumulated inblocks *)
      d ← with_log (block_difference (ru_inblock (begin_own_usage data))
                                     (ru_inblock (end_own_usage l)));
      apr_table_setn last notes_key_inblock (NoteText (fmt_ld d));;
      (* Set the accumulated oublocks *)
      d ← with_log (block_difference (ru_oublock (begin_own_usage data))
                                     (ru_oublock (end_own_usage l)));
      apr_table_setn last notes_key_oublock (NoteText (fmt_ld d));;
      (* Set the child accumilated user time *)
      d ← with_log (time_difference (ru_utime (begin_child_usage data))
                                    (ru_utime (end_child_usage l)));
      apr_table_setn last notes_key_cutime (NoteText (fmt_ld d));;
      (* Set the child accumilated system time *)
      d ← with_log (time_difference (ru_stime (begin_child_usage data))
                                    (ru_stime (end_child_usage l)));
      apr_table_setn last notes_key_cstime (NoteText (fmt_ld d));;
      (* Set the child accumulated inblocks *)
      d ← with_log (block_difference (ru_inblock (begin_child_usage data))
                                     (ru_inblock (end_child_usage l)));
      apr_table_setn last notes_key_cinblock (NoteText (fmt_ld d));;
      (* Set the child accumulated oublocks *)
      d ← with_log (block_difference (ru_oublock (begin_child_usage data))
                                     (ru_oublock (end_child_usage l)));
      apr_table_setn last notes_key_coublock (NoteText (fmt_ld d));;
      (* We're not a final handler *)
      mret DECLINED
  end.

(** Walks of the two hooks, by the names the design gives them: the first
    and the last request of the chain of [r]. *)
Definition resolve_first (fuel : nat) (r : ptr) : M ptr :=
  initial ← while_follow fuel main r;
  while_follow fuel prev initial.

Definition resolve_last (fuel : nat) (r : ptr) : M ptr :=
  initial ← while_follow fuel main r;
  while_follow fuel next initial.

(* ===================================================================== *)
(** ** Vocabulary of the properties *)
(* ===================================================================== *)

(** [q] is what [p->field] points to. *)
Definition edge (field : request_rec → option ptr)
    (h : gmap ptr request_rec) (p q : ptr) : Prop :=
  ∃ r, h !! p = Some r ∧ field r = Some q.

(** No request points, directly or through others, back to itself. *)
Definition acyclic (field : request_rec → option ptr)
    (h : gmap ptr request_rec) : Prop :=
  ∀ p, ¬ tc (edge field h) p p.

(** Every pointer stored in a request is the address of a request. *)
Definition closed (field : request_rec → option ptr)
    (h : gmap ptr request_rec) : Prop :=
  ∀ p r q, h !! p = Some r → field r = Some q → is_Some (h !! q).

(** The request graph the host guarantees: finitely many requests (a
    [gmap]), no dangling link, no cycle along [main], [prev] or [next]. *)
Definition chain_graph (h : gmap ptr request_rec) : Prop :=
  (closed main h ∧ closed prev h ∧ closed next h)
  ∧ (acyclic main h ∧ acyclic prev h ∧ acyclic next h).

(** Three top-level requests [1 -> 2 -> 3] with empty notes and an empty
    log, for the examples. *)
Definition chain3 : world :=
  World (<[1%positive := RequestRec None None (Some 2%positive) ∅]>
        (<[2%positive := RequestRec None (Some 1%positive) (Some 3%positive) ∅]>
        (<[3%positive := RequestRec None (Some 2%positive) None ∅]> ∅))) [].

(** The error entry a failed query leaves. *)
Definition query_error {A} (answer : option A) (errmsg : string) : server_log :=
  match answer with
  | Some _ => []
  | None => [(APLOG_ERR, MsgText errmsg)]
  end.

(** The block [data] points to when [module_accounting_start] stores it:
    each member is what its query answered, or, where the query failed, what
    the block held when it was allocated. *)
Definition capture (fresh : acc_data) (sys : syscalls) : acc_data :=
  AccData (default (begin_time fresh) (gettimeofday sys))
          (default (begin_own_usage fresh) (getrusage_self sys))
          (default (begin_child_usage fresh) (getrusage_children sys))
          0.

(** The errors of the failed queries of [module_accounting_start], and its
    debug block. *)
Definition start_errors (sys : syscalls) : server_log :=
  query_error (gettimeofday sys) "Request for (begin) time of day failed"
  ++ query_error (getrusage_self sys) "Request for (begin) resource usage failed"
  ++ query_error (getrusage_children sys)
       "Request for children's (begin) resource usage failed".

Definition start_debug (data : acc_data) : server_log :=
  [ (APLOG_DEBUG, MsgDebugTime "accounting_start:data->begin_time"
       (begin_time data));
    (APLOG_DEBUG, MsgDebugTime "accounting_start:data->begin_own_usage.ru_utime"
       (ru_utime (begin_own_usage data)));
    (APLOG_DEBUG, MsgDebugTime "accounting_start:data->begin_own_usage.ru_stime"
       (ru_stime (begin_own_usage data)));
    (APLOG_DEBUG, MsgDebugBlocks "accounting_start:data->begin_own_usage.ru_inblock"
       (ru_inblock (begin_own_usage data)));
    (APLOG_DEBUG, MsgDebugBlocks "accounting_start:data->begin_own_usage.ru_oublock"
       (ru_oublock (begin_own_usage data)));
    (APLOG_DEBUG, MsgDebugTime "accounting_start:data->begin_child_usage.ru_utime"
       (ru_utime (begin_child_usage data)));
    (APLOG_DEBUG, MsgDebugTime "accounting_start:data->begin_child_usage.ru_stime"
       (ru_stime (begin_child_usage data)));
    (APLOG_DEBUG, MsgDebugBlocks "accounting_start:data->begin_child_usage.ru_inblock"
       (ru_inblock (begin_child_usage data)));
    (APLOG_DEBUG, MsgDebugBlocks "accounting_start:data->begin_child_usage.ru_oublock"
       (ru_oublock (begin_child_usage data))) ].

(** Value and log entries of the delta functions, apart. *)
Definition time_delta (b e : timeval) : Z := fst (time_difference b e []).
Definition time_log (b e : timeval) : server_log := snd (time_difference b e []).
Definition block_delta (b e : Z) : Z := fst (block_difference b e []).
Definition block_log (b e : Z) : server_log := snd (block_difference b e []).

(** The automatic variables of [module_accounting_stop] after its three
    queries: what each query answered, or, where it failed, what the stack
    frame held. *)
Definition sample (frame : locals) (sys : syscalls) : locals :=
  Locals (default (end_time frame) (gettimeofday sys))
         (default (end_own_usage frame) (getrusage_self sys))
         (default (end_child_usage frame) (getrusage_children sys)).

(** The notes table of the last request after the nine [apr_table_setn]. *)
Definition publish (data : acc_data) (l : locals) (n : gmap string note)
    : gmap string note :=
  <[notes_key_coublock := NoteText (fmt_ld
      (block_delta (ru_oublock (begin_child_usage data))
                   (ru_oublock (end_child_usage l))))]>
  (<[notes_key_cinblock := NoteText (fmt_ld
      (block_delta (ru_inblock (begin_child_usage data))
                   (ru_inblock (end_child_usage l))))]>
  (<[notes_key_cstime := NoteText (fmt_ld
      (time_delta (ru_stime (begin_child_usage data))
                  (ru_stime (end_child_usage l))))]>
  (<[notes_key_cutime := NoteText (fmt_ld
      (time_delta (ru_utime (begin_child_usage data))
                  (ru_utime (end_child_usage l))))]>
  (<[notes_key_oublock := NoteText (fmt_ld
      (block_delta (ru_oublock (begin_own_usage data))
                   (ru_oublock (end_own_usage l))))]>
  (<[notes_key_inblock := NoteText (fmt_ld
      (block_delta (ru_inblock (begin_own_usage data))
                   (ru_inblock (end_own_usage l))))]>
  (<[notes_key_stime := NoteText (fmt_ld
      (time_delta (ru_stime (begin_own_usage data))
                  (ru_stime (end_own_usage l))))]>
  (<[notes_key_utime := NoteText (fmt_ld
      (time_delta (ru_utime (begin_own_usage data))
                  (ru_utime (end_own_usage l))))]>
  (<[notes_key_time := NoteText (fmt_ld
      (time_delta (begin_time data) (end_time l)))]> n)))))))).

(** The errors of the failed queries of [module_accounting_stop]. *)
Definition stop_errors (sys : syscalls) : server_log :=
  query_error (gettimeofday sys) "Request for (end) time of day failed"
  ++ query_error (getrusage_self sys) "Request for (end) resource usage failed"
  ++ query_error (getrusage_children sys)
       "Request for children's (end) resource usage failed".

(** What the nine delta computations log, in order. *)
Definition delta_log (data : acc_data) (l : locals) : server_log :=
  time_log (begin_time data) (end_time l)
  ++ time_log (ru_utime (begin_own_usage data)) (ru_utime (end_own_usage l))
  ++ time_log (ru_stime (begin_own_usage data)) (ru_stime (end_own_usage l))
  ++ block_log (ru_inblock (begin_own_usage data)) (ru_inblock (end_own_usage l))
  ++ block_log (ru_oublock (begin_own_usage data)) (ru_oublock (end_own_usage l))
  ++ time_log (ru_utime (begin_child_usage data)) (ru_utime (end_child_usage l))
  ++ time_log (ru_stime (begin_child_usage data)) (ru_stime (end_child_usage l))
  ++ block_log (ru_inblock (begin_child_usage data))
               (ru_inblock (end_child_usage l))
  ++ block_log (ru_oublock (begin_child_usage data))
               (ru_oublock (end_child_usage l)).

(** Top-level requests [a], [b], [c] linked [a -> b -> c] through [next]
    and back through [prev]. *)
Definition top_chain3 (h : gmap ptr request_rec) (a b c : ptr) : Prop :=
  ∃ ra rb rc,
    (h !! a = Some ra ∧ h !! b = Some rb ∧ h !! c = Some rc)
    ∧ (main ra = None ∧ main rb = None ∧ main rc = None)
    ∧ (prev ra = None ∧ next ra = Some b)
    ∧ (prev rb = Some a ∧ next rb = Some c)
    ∧ (prev rc = Some b ∧ next rc = None).

(** The state of [chain3] after a first start on its last request. *)
Definition chain3_started : world :=
  World (<[1%positive :=
             RequestRec None None (Some 2%positive)
               (<[notes_key_internal :=
                    NoteData (AccData (Timeval 1000 0) rusage_zero rusage_zero 0)]> ∅)]>
           (requests chain3))
        (start_debug (AccData (Timeval 1000 0) rusage_zero rusage_zero 0)).

(** [chain3_started] with a sub-request [4] of request [2]. *)
Definition chain3_sub : world :=
  World (<[4%positive := RequestRec (Some 2%positive) None None ∅]>
           (requests chain3_started))
        (log chain3_started).

(** The nine deltas, in the order of [metric_keys]. *)
Definition delta_values (data : acc_data) (l : locals) : list Z :=
  [ time_delta (begin_time data) (end_time l);
    time_delta (ru_utime (begin_own_usage data)) (ru_utime (end_own_usage l));
    time_delta (ru_stime (begin_own_usage data)) (ru_stime (end_own_usage l));
    block_delta (ru_inblock (begin_own_usage data)) (ru_inblock (end_own_usage l));
    block_delta (ru_oublock (begin_own_usage data)) (ru_oublock (end_own_usage l));
    time_delta (ru_utime (begin_child_usage data)) (ru_utime (end_child_usage l));
    time_delta (ru_stime (begin_child_usage data)) (ru_stime (end_child_usage l));
    block_delta (ru_inblock (begin_child_usage data))
                (ru_inblock (end_child_usage l));
    block_delta (ru_oublock (begin_child_usage data))
                (ru_oublock (end_child_usage l)) ].

(** A normalised microsecond member. *)
Definition usec_ok (t : timeval) : Prop := 0 <= tv_usec t < 1000000.




(* ===================================================================== *)
(** ** The hooks as the host calls them *)
(* ===================================================================== *)

(** [register_hooks] hands the host two entry points:
    [module_accounting_start] (post-read-request) and
    [module_accounting_stop] (log-transaction).  A call is one of the two,
    with the request it is given, the memory it finds and what the system
    answers. *)
Inductive hook_call :=
  | CallStart (fuel : nat) (fresh : acc_data) (sys : syscalls) (r : ptr)
  | CallStop (fuel : nat) (frame : locals) (sys : syscalls) (r : ptr).

Definition call_fuel (c : hook_call) : nat :=
  match c with
  | CallStart fuel _ _ _ => fuel
  | CallStop fuel _ _ _ => fuel
  end.

Definition call_request (c : hook_call) : ptr :=
  match c with
  | CallStart _ _ _ r => r
  | CallStop _ _ _ r => r
  end.

Definition run_hook (c : hook_call) : M Z :=
  match c with
  | CallStart fuel fresh sys r => module_accounting_start fuel fresh sys r
  | CallStop fuel frame sys r => module_accounting_stop fuel frame sys r
  end.

(** The host runs the calls one after the other and goes on whatever a hook
    returns. *)
Fixpoint run_hooks (cs : list hook_call) : M unit :=
  match cs with
  | [] => mret tt
  | c :: cs => run_hook c;; run_hooks cs
  end.

(** The three pointers of a request, and the link structure of the graph:
    which requests exist and where they point. *)
Definition links (r : request_rec) : option ptr * option ptr * option ptr :=
  (main r, prev r, next r).

Definition link_map (h : gmap ptr request_rec)
    : gmap ptr (option ptr * option ptr * option ptr) :=
  links <$> h.

(** A member of [request_rec] that is one of its links. *)
Definition is_link (field : request_rec → option ptr) : Prop :=
  ∀ r r', links r = links r' → field r = field r'.

(** The reserved key of every request that has one keeps its value from
    [w] to [w1]. *)
Definition snapshots_kept (w w1 : world) : Prop :=
  ∀ p r v, requests w !! p = Some r → notes r !! notes_key_internal = Some v →
           ∃ r1, requests w1 !! p = Some r1
                 ∧ notes r1 !! notes_key_internal = Some v.

(** Whatever sits under the reserved key is an [acc_data] block. *)
Definition snapshots_typed (h : gmap ptr request_rec) : Prop :=
  ∀ p r v, h !! p = Some r → notes r !! notes_key_internal = Some v →
           ∃ d, v = NoteData d.

(** A call the host may make in a state: on an existing request, with more
    fuel than there are requests. *)
Definition call_ok (w : world) (c : hook_call) : Prop :=
  is_Some (requests w !! call_request c)
  ∧ (size (requests w) < call_fuel c)%nat.

(** The error entries of the delta functions. *)
Definition time_anomaly (b e : timeval) : server_log :=
  if timetravel b e then [(APLOG_ERR, MsgTimetraveling b e)] else [].

Definition block_anomaly (b e : Z) : server_log :=
  if b >? e then [(APLOG_ERR, MsgNegativeBlockcount b e)] else [].

(** The error entries of the nine delta computations, in order. *)
Definition delta_anomalies (data : acc_data) (l : locals) : server_log :=
  time_anomaly (begin_time data) (end_time l)
  ++ time_anomaly (ru_utime (begin_own_usage data)) (ru_utime (end_own_usage l))
  ++ time_anomaly (ru_stime (begin_own_usage data)) (ru_stime (end_own_usage l))
  ++ block_anomaly (ru_inblock (begin_own_usage data))
                   (ru_inblock (end_own_usage l))
  ++ block_anomaly (ru_oublock (begin_own_usage data))
                   (ru_oublock (end_own_usage l))
  ++ time_anomaly (ru_utime (begin_child_usage data))
                  (ru_utime (end_child_usage l))
  ++ time_anomaly (ru_stime (begin_child_usage data))
                  (ru_stime (end_child_usage l))
  ++ block_anomaly (ru_inblock (begin_child_usage data))
                   (ru_inblock (end_child_usage l))
  ++ block_anomaly (ru_oublock (begin_child_usage data))
                   (ru_oublock (end_child_usage l)).

(* ===================================================================== *)
(** * Properties *)
(* ===================================================================== *)

(** ** Signed 64-bit wrap-around *)

Lemma wrap64_id z : in_long z → wrap64 z = z.
Proof.
  unfold in_long, LONG_MIN, LONG_MAX, wrap64. intros H.
  rewrite Z.mod_small by lia. lia.
Qed.

Lemma wrap64_in_long z : in_long (wrap64 z).
Proof.
  unfold in_long, LONG_MIN, LONG_MAX, wrap64.
  pose proof (Z.mod_pos_bound (z + 2 ^ 63) (2 ^ 64) ltac:(lia)). lia.
Qed.

Lemma wrap64_congr a b : a mod 2 ^ 64 = b mod 2 ^ 64 → wrap64 a = wrap64 b.
Proof.
  intros H. unfold wrap64. f_equal.
  rewrite <- (Zplus_mod_idemp_l a), <- (Zplus_mod_idemp_l b). by rewrite H.
Qed.

Lemma wrap64_mod z : wrap64 z mod 2 ^ 64 = z mod 2 ^ 64.
Proof.
  unfold wrap64.
  rewrite <- Zminus_mod_idemp_l, Zmod_mod, Zminus_mod_idemp_l.
  f_equal. lia.
Qed.

(** The three wrapped steps of [time_difference] amount to one reduction of
    the exact value. *)
Lemma wrap64_steps a b :
  wrap64 (wrap64 (wrap64 a * 1000000) + wrap64 b) = wrap64 (a * 1000000 + b).
Proof.
  apply wrap64_congr.
  rewrite Zplus_mod, !wrap64_mod, <- Zplus_mod.
  rewrite (Zplus_mod (wrap64 a * 1000000)), (Zplus_mod (a * 1000000)).
  do 2 f_equal.
  rewrite Zmult_mod, wrap64_mod, <- Zmult_mod. done.
Qed.

(** ** The sanity checks *)

Lemma timetravel_true b e : timetravel b e = true ↔ lex_lt e b.
Proof.
  unfold timetravel, lex_lt.
  rewrite orb_true_iff, andb_true_iff, !Z.ltb_lt, Z.eqb_eq. done.
Qed.

Lemma timetravel_false b e : timetravel b e = false ↔ lex_le b e.
Proof.
  unfold timetravel, lex_le.
  rewrite orb_false_iff, andb_false_iff, !Z.ltb_ge, Z.eqb_neq. lia.
Qed.

Lemma time_difference_forward b e lg :
  lex_le b e →
  time_difference b e lg =
    (wrap64 (exact_usec b e),
     lg ++ [(APLOG_DEBUG, MsgDebugTime "time_difference:begin" b);
            (APLOG_DEBUG, MsgDebugTime "time_difference:end" e)]).
Proof.
  intros H%timetravel_false. unfold time_difference. rewrite H.
  unfold ACC_LOG_DEBUG_TIME, exact_usec.
  by rewrite wrap64_steps, <- app_assoc.
Qed.

Lemma time_difference_backward b e lg :
  lex_lt e b →
  time_difference b e lg = (0, lg ++ [(APLOG_ERR, MsgTimetraveling b e)]).
Proof. intros H%timetravel_true. unfold time_difference. by rewrite H. Qed.

Lemma block_difference_forward b e lg :
  b <= e →
  block_difference b e lg =
    (wrap64 (e - b),
     lg ++ [(APLOG_DEBUG, MsgDebugBlocks "block_difference:begin" b);
            (APLOG_DEBUG, MsgDebugBlocks "block_difference:end" e)]).
Proof.
  intros H. unfold block_difference.
  destruct (Z.gtb_spec b e) as [?|_]; [lia|].
  unfold ACC_LOG_DEBUG_BLOCKS. by rewrite <- app_assoc.
Qed.

Lemma block_difference_backward b e lg :
  b > e →
  block_difference b e lg = (0, lg ++ [(APLOG_ERR, MsgNegativeBlockcount b e)]).
Proof.
  intros H. unfold block_difference.
  destruct (Z.gtb_spec b e) as [_|?]; [done|lia].
Qed.

Lemma anomalies_app l1 l2 : anomalies (l1 ++ l2) = anomalies l1 ++ anomalies l2.
Proof. apply List.filter_app. Qed.

(** ** Claims on [time_difference] and [block_difference] *)

(** C1, as stated, fails: the seconds of [end] are so far from those of
    [begin] that the microsecond count leaves the range of [long long]; the
    value returned is the wrapped one, not the exact one. *)
Lemma time_difference_exact_counterexample :
  let b := Timeval 0 0 in
  let e := Timeval 9223372036855 0 in
  lex_le b e
  ∧ in_long (tv_sec e)
  ∧ exact_usec b e = 9223372036855000000
  ∧ fst (time_difference b e []) = -9223372036854551616
  ∧ fst (time_difference b e []) ≠ exact_usec b e.
Proof.
  cbv zeta. split; [left; simpl; lia|].
  split; [unfold in_long, LONG_MIN, LONG_MAX; simpl; lia|].
  split; [reflexivity|]. split; [by vm_compute|by vm_compute].
Qed.

(** C1 (amended).  For every pair of time values with [end >= begin] in the
    lexicographic order (seconds first, microseconds as tiebreak),
    [time_difference] returns
    [(end.tv_sec - begin.tv_sec) * 1000000 + (end.tv_usec - begin.tv_usec)]
    reduced into the signed 64-bit range, which is exactly that value
    whenever it fits in a signed 64-bit integer. *)
Theorem time_difference_exact b e lg :
  lex_le b e →
  fst (time_difference b e lg) = wrap64 (exact_usec b e)
  ∧ (in_long (exact_usec b e) →
     fst (time_difference b e lg)
     = (tv_sec e - tv_sec b) * 1000000 + (tv_usec e - tv_usec b)).
Proof.
  intros H. rewrite time_difference_forward by done. simpl.
  split; [done|]. intros Hr. by rewrite wrap64_id.
Qed.

Lemma time_difference_exact_witness :
  lex_le (Timeval 1000 0) (Timeval 1002 250000)
  ∧ fst (time_difference (Timeval 1000 0) (Timeval 1002 250000) []) = 2250000.
Proof.
  assert (H : lex_le (Timeval 1000 0) (Timeval 1002 250000))
    by (left; simpl; lia).
  split; [exact H|].
  destruct (time_difference_exact (Timeval 1000 0) (Timeval 1002 250000) [] H)
    as [_ Hx].
  rewrite Hx; [reflexivity|].
  unfold in_long, exact_usec, LONG_MIN, LONG_MAX; simpl; lia.
Defined.

(** C5.  For every pair of time values where [end] is strictly earlier than
    [begin] in the lexicographic order, [time_difference] returns 0 and
    appends exactly one entry to the log: the error-level "Timetraveling"
    message carrying both values. *)
Theorem time_difference_timetravel b e lg :
  lex_lt e b →
  time_difference b e lg = (0, lg ++ [(APLOG_ERR, MsgTimetraveling b e)])
  ∧ anomalies (snd (time_difference b e lg))
    = anomalies lg ++ [(APLOG_ERR, MsgTimetraveling b e)].
Proof.
  intros H. rewrite time_difference_backward by done.
  split; [done|]. simpl. by rewrite anomalies_app.
Qed.

Lemma time_difference_timetravel_witness :
  lex_lt (Timeval 5 999999) (Timeval 6 0)
  ∧ time_difference (Timeval 6 0) (Timeval 5 999999) []
    = (0, [(APLOG_ERR, MsgTimetraveling (Timeval 6 0) (Timeval 5 999999))]).
Proof.
  assert (H : lex_lt (Timeval 5 999999) (Timeval 6 0)) by (left; simpl; lia).
  split; [exact H|].
  exact (proj1 (time_difference_timetravel (Timeval 6 0) (Timeval 5 999999) [] H)).
Defined.

(** C6.  For all non-negative counters [begin] and [end] (values of a
    [long]): if [end >= begin], [block_difference] returns [end - begin] and
    logs no anomaly (two debug entries only); if [begin > end], it returns 0
    and logs exactly one anomaly, the "Negative blockcount" error carrying
    both values. *)
Theorem block_difference_correct b e lg :
  0 <= b <= LONG_MAX → 0 <= e <= LONG_MAX →
  (b <= e →
     fst (block_difference b e lg) = e - b
     ∧ anomalies (snd (block_difference b e lg)) = anomalies lg)
  ∧ (b > e →
     block_difference b e lg
     = (0, lg ++ [(APLOG_ERR, MsgNegativeBlockcount b e)])
     ∧ anomalies (snd (block_difference b e lg))
       = anomalies lg ++ [(APLOG_ERR, MsgNegativeBlockcount b e)]).
Proof.
  intros Hb He. split; intros H.
  - rewrite block_difference_forward by done. simpl. split.
    + apply wrap64_id. unfold in_long, LONG_MIN, LONG_MAX in *. lia.
    + rewrite anomalies_app. simpl. by rewrite app_nil_r.
  - rewrite block_difference_backward by done. simpl.
    split; [done|]. by rewrite anomalies_app.
Qed.

Lemma block_difference_correct_witness :
  fst (block_difference 30 50 []) = 20
  ∧ block_difference 50 30 [] = (0, [(APLOG_ERR, MsgNegativeBlockcount 50 30)]).
Proof.
  assert (R : ∀ z, 0 <= z <= 50 → 0 <= z <= LONG_MAX)
    by (unfold LONG_MAX; intros; lia).
  split.
  - refine (proj1 (proj1 (block_difference_correct 30 50 [] (R 30 _) (R 50 _)) _));
      lia.
  - refine (proj1 (proj2 (block_difference_correct 50 30 [] (R 50 _) (R 30 _)) _));
      lia.
Defined.

(** ** Running the monad *)

Lemma bind_run {A B} (m : M A) (f : A → M B) w :
  (m ≫= f) w = match m w with inl e => inl e | inr (a, w') => f a w' end.
Proof. reflexivity. Qed.

Lemma bind_inr {A B} (m : M A) (f : A → M B) w a w' :
  m w = inr (a, w') → (m ≫= f) w = f a w'.
Proof. intros H. by rewrite bind_run, H. Qed.

Lemma ret_run {A} (a : A) w : mret (M := M) a w = inr (a, w).
Proof. reflexivity. Qed.

Lemma deref_run p w r : requests w !! p = Some r → deref p w = inr (r, w).
Proof. intros H. unfold deref. by rewrite H. Qed.

Lemma do_log_run f w : do_log f w = inr (tt, World (requests w) (f (log w))).
Proof. reflexivity. Qed.

Lemma with_log_run {A} (f : server_log → A * server_log) w :
  with_log f w = inr (fst (f (log w)), World (requests w) (snd (f (log w)))).
Proof. unfold with_log. by destruct (f (log w)). Qed.

Lemma apr_table_get_run p key w r :
  requests w !! p = Some r → apr_table_get p key w = inr (notes r !! key, w).
Proof.
  intros H. unfold apr_table_get. by rewrite (bind_inr _ _ _ _ _ (deref_run _ _ _ H)).
Qed.

(** ** The walks: purity, end points, termination *)

Lemma while_follow_pure fuel field p w q w' :
  while_follow fuel field p w = inr (q, w') → w' = w.
Proof.
  revert p. induction fuel as [|fuel IH]; intros p; simpl; [done|].
  rewrite bind_run. unfold deref.
  destruct (requests w !! p) as [r|]; [|done].
  destruct (field r) as [q'|]; [apply IH|].
  rewrite ret_run. congruence.
Qed.

Lemma while_follow_end fuel field p w q w' :
  while_follow fuel field p w = inr (q, w') →
  ∃ r, requests w !! q = Some r ∧ field r = None.
Proof.
  revert p. induction fuel as [|fuel IH]; intros p; simpl; [done|].
  rewrite bind_run. unfold deref.
  destruct (requests w !! p) as [r|] eqn:Hp; [|done].
  destruct (field r) as [q'|] eqn:Hf; [apply IH|].
  rewrite ret_run. intros [= <- _]. eauto.
Qed.

Lemma while_follow_self fuel field p w r :
  requests w !! p = Some r → field r = None →
  while_follow (S fuel) field p w = inr (p, w).
Proof.
  intros Hp Hf. simpl. rewrite (bind_inr _ _ _ _ _ (deref_run _ _ _ Hp)).
  by rewrite Hf.
Qed.

Lemma while_follow_step fuel field p w r q :
  requests w !! p = Some r → field r = Some q →
  while_follow (S fuel) field p w = while_follow fuel field q w.
Proof.
  intros Hp Hf. simpl. rewrite (bind_inr _ _ _ _ _ (deref_run _ _ _ Hp)).
  by rewrite Hf.
Qed.

(** With [V] a set of requests already left behind on the way to [p], the
    loop ends before the fuel does as soon as the fuel exceeds the number of
    requests not in [V]. *)
Lemma while_follow_terminates_from field w :
  closed field (requests w) → acyclic field (requests w) →
  ∀ (fuel : nat) (p : ptr) (V : gset ptr),
    V ⊆ dom (requests w) →
    (∀ v, v ∈ V → tc (edge field (requests w)) v p) →
    is_Some (requests w !! p) →
    (size (requests w) < size V + fuel)%nat →
    ∃ q, while_follow fuel field p w = inr (q, w).
Proof.
  intros Hcl Hac. induction fuel as [|fuel IH]; intros p V HV Hreach [r Hp] Hsz.
  - apply subseteq_size in HV. rewrite size_dom in HV. lia.
  - destruct (field r) as [q|] eqn:Hf.
    + rewrite (while_follow_step _ _ _ _ _ _ Hp Hf).
      assert (Hnot : p ∉ V) by (intros Hin; exact (Hac p (Hreach p Hin))).
      apply (IH q ({[p]} ∪ V)).
      * apply union_subseteq. split; [|done].
        apply singleton_subseteq_l, elem_of_dom. eauto.
      * intros v [->%elem_of_singleton|Hv]%elem_of_union.
        -- apply tc_once. by exists r.
        -- eapply tc_r; [by apply Hreach|]. by exists r.
      * by eapply Hcl.
      * rewrite size_union by set_solver. rewrite size_singleton. lia.
    + exists p. by apply while_follow_self with r.
Qed.

Lemma while_follow_terminates field w fuel p :
  closed field (requests w) → acyclic field (requests w) →
  is_Some (requests w !! p) →
  (size (requests w) < fuel)%nat →
  ∃ q r, while_follow fuel field p w = inr (q, w)
         ∧ requests w !! q = Some r ∧ field r = None.
Proof.
  intros Hcl Hac Hp Hsz.
  destruct (while_follow_terminates_from field w Hcl Hac fuel p ∅) as [q Hq].
  - set_solver.
  - set_solver.
  - done.
  - rewrite size_empty. lia.
  - destruct (while_follow_end _ _ _ _ _ _ Hq) as (r & ? & ?). eauto.
Qed.

Lemma resolve_first_run fuel r w top a :
  while_follow fuel main r w = inr (top, w) →
  while_follow fuel prev top w = inr (a, w) →
  resolve_first fuel r w = inr (a, w).
Proof.
  intros H1 H2. unfold resolve_first. by rewrite (bind_inr _ _ _ _ _ H1).
Qed.

Lemma resolve_last_run fuel r w top l :
  while_follow fuel main r w = inr (top, w) →
  while_follow fuel next top w = inr (l, w) →
  resolve_last fuel r w = inr (l, w).
Proof.
  intros H1 H2. unfold resolve_last. by rewrite (bind_inr _ _ _ _ _ H1).
Qed.

(** A successful resolution is made of two successful walks. *)
Lemma resolve_first_inv fuel r w a w' :
  resolve_first fuel r w = inr (a, w') →
  w' = w ∧ ∃ top, while_follow fuel main r w = inr (top, w)
                  ∧ while_follow fuel prev top w = inr (a, w).
Proof.
  unfold resolve_first. rewrite bind_run.
  destruct (while_follow fuel main r w) as [|[top w1]] eqn:H1; [done|].
  apply while_follow_pure in H1 as ->. intros H2.
  pose proof (while_follow_pure _ _ _ _ _ _ H2) as ->. eauto.
Qed.

Lemma resolve_last_inv fuel r w l w' :
  resolve_last fuel r w = inr (l, w') →
  w' = w ∧ ∃ top, while_follow fuel main r w = inr (top, w)
                  ∧ while_follow fuel next top w = inr (l, w).
Proof.
  unfold resolve_last. rewrite bind_run.
  destruct (while_follow fuel main r w) as [|[top w1]] eqn:H1; [done|].
  apply while_follow_pure in H1 as ->. intros H2.
  pose proof (while_follow_pure _ _ _ _ _ _ H2) as ->. eauto.
Qed.

(** A rank that decreases along every link rules cycles out. *)
Lemma acyclic_by_rank field h (rank : ptr → nat) :
  (∀ p q, edge field h p q → (rank q < rank p)%nat) → acyclic field h.
Proof.
  intros Hrank p Hcyc.
  assert (Hlt : ∀ x y, tc (edge field h) x y → (rank y < rank x)%nat).
  { induction 1 as [x y H|x y z H _ IH]; [by apply Hrank|].
    apply Hrank in H. lia. }
  apply Hlt in Hcyc. lia.
Qed.

(** ** A chain of three internally redirected requests, for examples *)

Ltac chain3_cases H :=
  unfold chain3 in H; simpl in H;
  apply lookup_insert_Some in H as [[<- <-]|[? H]];
  [|apply lookup_insert_Some in H as [[<- <-]|[? H]];
    [|apply lookup_insert_Some in H as [[<- <-]|[? H]];
      [|by rewrite lookup_empty in H]]].

Lemma chain3_graph : chain_graph (requests chain3).
Proof.
  split; [split; [|split]|split; [|split]].
  - intros p r q H Hf. chain3_cases H; simplify_eq/=.
  - intros p r q H Hf. chain3_cases H; simplify_eq/=; by eexists.
  - intros p r q H Hf. chain3_cases H; simplify_eq/=; by eexists.
  - apply (acyclic_by_rank _ _ (λ _, 0%nat)).
    intros p q (r & H & Hf). chain3_cases H; simplify_eq/=.
  - apply (acyclic_by_rank _ _ Pos.to_nat).
    intros p q (r & H & Hf). chain3_cases H; simplify_eq/=; lia.
  - apply (acyclic_by_rank _ _ (λ p, 4 - Pos.to_nat p)%nat).
    intros p q (r & H & Hf). chain3_cases H; simplify_eq/=; lia.
Qed.

(** ** Chain resolution *)

(** C9.  The walks to the first and to the last request of a chain are
    pure (the state they return is the state they were given), and on every
    finite request graph without dangling links and without cycles they end
    and return a request once the fuel exceeds the number of requests; the
    request returned has no [prev] (respectively no [next]).  A request with
    no [main] and no [prev] (respectively no [next]) resolves to itself. *)
Theorem resolve_terminates w r fuel :
  chain_graph (requests w) →
  is_Some (requests w !! r) →
  (size (requests w) < fuel)%nat →
  (∃ a ra, resolve_first fuel r w = inr (a, w)
           ∧ requests w !! a = Some ra ∧ prev ra = None)
  ∧ (∃ l rl, resolve_last fuel r w = inr (l, w)
             ∧ requests w !! l = Some rl ∧ next rl = None)
  ∧ (∀ n a w', resolve_first n r w = inr (a, w') → w' = w)
  ∧ (∀ n l w', resolve_last n r w = inr (l, w') → w' = w)
  ∧ (∀ n rec, requests w !! r = Some rec → main rec = None →
       (prev rec = None → resolve_first (S n) r w = inr (r, w))
       ∧ (next rec = None → resolve_last (S n) r w = inr (r, w))).
Proof.
  intros [(Cm & Cp & Cn) (Am & Ap & An)] Hr Hsz.
  destruct (while_follow_terminates main w fuel r Cm Am Hr Hsz)
    as (top & rt & Htop & Hrt & _).
  destruct (while_follow_terminates prev w fuel top Cp Ap (mk_is_Some _ _ Hrt) Hsz)
    as (a & ra & Ha & Hra & Hpa).
  destruct (while_follow_terminates next w fuel top Cn An (mk_is_Some _ _ Hrt) Hsz)
    as (l & rl & Hl & Hrl & Hnl).
  split; [|split; [|split; [|split]]].
  - exists a, ra. eauto using resolve_first_run.
  - exists l, rl. eauto using resolve_last_run.
  - intros n a' w' H. by apply resolve_first_inv in H as [-> _].
  - intros n l' w' H. by apply resolve_last_inv in H as [-> _].
  - intros n rec Hrec Hm. split; intros Hx.
    + eapply resolve_first_run; by eapply while_follow_self.
    + eapply resolve_last_run; by eapply while_follow_self.
Qed.

Lemma resolve_terminates_witness :
  chain_graph (requests chain3)
  ∧ (∃ a ra, resolve_first 4 2%positive chain3 = inr (a, chain3)
             ∧ requests chain3 !! a = Some ra ∧ prev ra = None)
  ∧ (∃ l rl, resolve_last 4 2%positive chain3 = inr (l, chain3)
             ∧ requests chain3 !! l = Some rl ∧ next rl = None).
Proof.
  assert (Hsz : (size (requests chain3) < 4)%nat) by (vm_compute; lia).
  assert (Hr : is_Some (requests chain3 !! 2%positive)) by (by eexists).
  split; [exact chain3_graph|].
  destruct (resolve_terminates chain3 2%positive 4 chain3_graph Hr Hsz)
    as (H1 & H2 & _).
  exact (conj H1 H2).
Defined.

(** ** Closed forms of the hooks *)

Lemma query_run {A} (answer : option A) buf errmsg w :
  query answer buf errmsg w
  = inr (default buf answer,
         World (requests w) (log w ++ query_error answer errmsg)).
Proof.
  destruct w as [h lg], answer as [v|]; simpl; [|done].
  by rewrite ret_run, app_nil_r.
Qed.

Lemma apr_table_setn_run p key val w r :
  requests w !! p = Some r →
  apr_table_setn p key val w
  = inr (tt, World (<[p := with_notes r (<[key := val]> (notes r))]> (requests w))
                   (log w)).
Proof. intros H. unfold apr_table_setn. by rewrite H. Qed.

Ltac run_step :=
  rewrite bind_run;
  first [ rewrite query_run
        | rewrite do_log_run
        | erewrite apr_table_setn_run by eassumption ];
  cbv beta iota delta [requests log].

Lemma start_fresh fuel fresh sys r w a w' ra :
  resolve_first fuel r w = inr (a, w') →
  requests w !! a = Some ra →
  notes ra !! notes_key_internal = None →
  module_accounting_start fuel fresh sys r w
  = inr (DECLINED,
         World (<[a := with_notes ra
                         (<[notes_key_internal := NoteData (capture fresh sys)]>
                            (notes ra))]> (requests w))
               (log w ++ start_errors sys ++ start_debug (capture fresh sys))).
Proof.
  intros (-> & top & H1 & H2)%resolve_first_inv Ha Hn.
  unfold module_accounting_start.
  rewrite (bind_inr _ _ _ _ _ H1), (bind_inr _ _ _ _ _ H2).
  rewrite (bind_inr _ _ _ _ _ (apr_table_get_run _ _ _ _ Ha)), Hn.
  destruct w as [h lg]. simpl in Ha.
  do 13 run_step.
  rewrite ret_run. unfold capture, start_errors, start_debug, ACC_LOG_DEBUG_TIME,
    ACC_LOG_DEBUG_BLOCKS. simpl.
  do 2 f_equal. rewrite <- !app_assoc. reflexivity.
Qed.

Lemma start_again fuel fresh sys r w a w' ra :
  resolve_first fuel r w = inr (a, w') →
  requests w !! a = Some ra →
  is_Some (notes ra !! notes_key_internal) →
  module_accounting_start fuel fresh sys r w = inr (DECLINED, w).
Proof.
  intros (-> & top & H1 & H2)%resolve_first_inv Ha [v Hv].
  unfold module_accounting_start.
  rewrite (bind_inr _ _ _ _ _ H1), (bind_inr _ _ _ _ _ H2).
  by rewrite (bind_inr _ _ _ _ _ (apr_table_get_run _ _ _ _ Ha)), Hv.
Qed.

Lemma time_difference_split b e lg :
  time_difference b e lg = (time_delta b e, lg ++ time_log b e).
Proof.
  unfold time_delta, time_log, time_difference.
  destruct (timetravel b e); simpl; [done|].
  unfold ACC_LOG_DEBUG_TIME. by rewrite <- app_assoc.
Qed.

Lemma block_difference_split b e lg :
  block_difference b e lg = (block_delta b e, lg ++ block_log b e).
Proof.
  unfold block_delta, block_log, block_difference.
  destruct (b >? e); simpl; [done|].
  unfold ACC_LOG_DEBUG_BLOCKS. by rewrite <- app_assoc.
Qed.

Lemma with_log_time_run b e w :
  with_log (time_difference b e) w
  = inr (time_delta b e, World (requests w) (log w ++ time_log b e)).
Proof. by rewrite with_log_run, time_difference_split. Qed.

Lemma with_log_block_run b e w :
  with_log (block_difference b e) w
  = inr (block_delta b e, World (requests w) (log w ++ block_log b e)).
Proof. by rewrite with_log_run, block_difference_split. Qed.

(** The error-level entries of the debug block are none. *)
Lemma debug_stop_begin_run data w :
  ∃ dbg, debug_stop_begin data w = inr (tt, World (requests w) (log w ++ dbg))
         ∧ anomalies dbg = [].
Proof.
  destruct w as [h lg]. unfold debug_stop_begin.
  do 8 run_step. rewrite do_log_run.
  unfold ACC_LOG_DEBUG_TIME, ACC_LOG_DEBUG_BLOCKS. simpl.
  rewrite <- !app_assoc. simpl. eexists. split; [reflexivity|]. reflexivity.
Qed.

Lemma debug_stop_end_run l w :
  ∃ dbg, debug_stop_end l w = inr (tt, World (requests w) (log w ++ dbg))
         ∧ anomalies dbg = [].
Proof.
  destruct w as [h lg]. unfold debug_stop_end.
  do 8 run_step. rewrite do_log_run.
  unfold ACC_LOG_DEBUG_TIME, ACC_LOG_DEBUG_BLOCKS. simpl.
  rewrite <- !app_assoc. simpl. eexists. split; [reflexivity|]. reflexivity.
Qed.

Lemma with_notes_notes r n : notes (with_notes r n) = n.
Proof. reflexivity. Qed.

Lemma with_notes_twice r n n' : with_notes (with_notes r n) n' = with_notes r n'.
Proof. reflexivity. Qed.

Ltac publish_step :=
  rewrite bind_run;
  first [ rewrite with_log_time_run | rewrite with_log_block_run ];
  cbv beta iota delta [requests log];
  rewrite bind_run;
  erewrite apr_table_setn_run by (first [eassumption | apply lookup_insert_eq]);
  cbv beta iota delta [requests log];
  rewrite ?insert_insert_eq, ?with_notes_twice, ?with_notes_notes.

(** [module_accounting_stop] with the reference values in place: the nine
    notes are set on the last request, and the log grows by the errors of
    the failed queries, the debug block, and the entries of the nine delta
    computations. *)
Lemma stop_present fuel frame sys r w a w' l w'' ra data rl :
  resolve_first fuel r w = inr (a, w') →
  resolve_last fuel r w = inr (l, w'') →
  requests w !! a = Some ra →
  notes ra !! notes_key_internal = Some (NoteData data) →
  requests w !! l = Some rl →
  ∃ dbg,
    anomalies dbg = []
    ∧ module_accounting_stop fuel frame sys r w
      = inr (DECLINED,
             World (<[l := with_notes rl
                             (publish data (sample frame sys) (notes rl))]>
                      (requests w))
                   (log w ++ stop_errors sys ++ dbg
                      ++ delta_log data (sample frame sys))).
Proof.
  intros (-> & top & H1 & H2)%resolve_first_inv
         (-> & top' & H1' & H3)%resolve_last_inv Ha Hd Hl.
  assert (top' = top) as -> by congruence.
  unfold module_accounting_stop.
  rewrite (bind_inr _ _ _ _ _ H1), (bind_inr _ _ _ _ _ H2),
    (bind_inr _ _ _ _ _ H3).
  rewrite (bind_inr _ _ _ _ _ (apr_table_get_run _ _ _ _ Ha)), Hd.
  destruct w as [h lg]. simpl in Ha, Hl.
  do 3 run_step.
  fold (sample frame sys).
  destruct (debug_stop_begin_run data
              (World h (((lg ++ query_error (gettimeofday sys)
                                  "Request for (end) time of day failed")
                         ++ query_error (getrusage_self sys)
                              "Request for (end) resource usage failed")
                        ++ query_error (getrusage_children sys)
                             "Request for children's (end) resource usage failed")))
    as (dbg1 & Hb & Hb0).
  rewrite (bind_inr _ _ _ _ _ Hb). cbv beta iota delta [requests log].
  set (lg1 := _ ++ dbg1).
  destruct (debug_stop_end_run (sample frame sys) (World h lg1))
    as (dbg2 & He & He0).
  rewrite (bind_inr _ _ _ _ _ He). cbv beta iota delta [requests log].
  do 9 publish_step.
  rewrite ret_run.
  exists (dbg1 ++ dbg2). split; [by rewrite anomalies_app, Hb0, He0|].
  unfold publish, delta_log, stop_errors, lg1. simpl.
  do 2 f_equal. rewrite <- !app_assoc. reflexivity.
Qed.

(** [module_accounting_stop] without the reference values. *)
Lemma stop_absent fuel frame sys r w a w' l w'' ra :
  resolve_first fuel r w = inr (a, w') →
  resolve_last fuel r w = inr (l, w'') →
  requests w !! a = Some ra →
  notes ra !! notes_key_internal = None →
  module_accounting_stop fuel frame sys r w
  = inr (DECLINED,
         World (requests w)
               (log w ++ [(APLOG_ERR, MsgText "Failed to fetch internal data!")])).
Proof.
  intros (-> & top & H1 & H2)%resolve_first_inv
         (-> & top' & H1' & H3)%resolve_last_inv Ha Hd.
  assert (top' = top) as -> by congruence.
  unfold module_accounting_stop.
  rewrite (bind_inr _ _ _ _ _ H1), (bind_inr _ _ _ _ _ H2),
    (bind_inr _ _ _ _ _ H3).
  rewrite (bind_inr _ _ _ _ _ (apr_table_get_run _ _ _ _ Ha)), Hd.
  by rewrite bind_run, do_log_run.
Qed.

(** ** Walks on a chain of three *)

Lemma top_chain3_distinct h a b c :
  top_chain3 h a b c → a ≠ b ∧ b ≠ c ∧ a ≠ c.
Proof.
  intros (ra & rb & rc & (Ha & Hb & Hc) & _ & (Hpa & Hna) & (Hpb & Hnb) & (Hpc & Hnc)).
  repeat split; intros ->; congruence.
Qed.

Lemma top_chain3_first h lg a b c n x :
  top_chain3 h a b c → x = a ∨ x = b ∨ x = c →
  resolve_first (S (S (S n))) x (World h lg) = inr (a, World h lg).
Proof.
  intros (ra & rb & rc & (Ha & Hb & Hc) & (Hma & Hmb & Hmc)
          & (Hpa & Hna) & (Hpb & Hnb) & (Hpc & Hnc)) Hx.
  set (w := World h lg).
  assert (Fa : ∀ k, while_follow (S k) prev a w = inr (a, w))
    by (intros k; by apply while_follow_self with ra).
  assert (Fb : ∀ k, while_follow (S (S k)) prev b w = inr (a, w))
    by (intros k; by rewrite (while_follow_step _ _ b w rb a)).
  assert (Fc : ∀ k, while_follow (S (S (S k))) prev c w = inr (a, w))
    by (intros k; by rewrite (while_follow_step _ _ c w rc b)).
  destruct Hx as [->|[->| ->]].
  - eapply resolve_first_run; [by apply while_follow_self with ra|apply Fa].
  - eapply resolve_first_run; [by apply while_follow_self with rb|apply Fb].
  - eapply resolve_first_run; [by apply while_follow_self with rc|apply Fc].
Qed.

Lemma top_chain3_last h lg a b c n x :
  top_chain3 h a b c → x = a ∨ x = b ∨ x = c →
  resolve_last (S (S (S n))) x (World h lg) = inr (c, World h lg).
Proof.
  intros (ra & rb & rc & (Ha & Hb & Hc) & (Hma & Hmb & Hmc)
          & (Hpa & Hna) & (Hpb & Hnb) & (Hpc & Hnc)) Hx.
  set (w := World h lg).
  assert (Fc : ∀ k, while_follow (S k) next c w = inr (c, w))
    by (intros k; by apply while_follow_self with rc).
  assert (Fb : ∀ k, while_follow (S (S k)) next b w = inr (c, w))
    by (intros k; by rewrite (while_follow_step _ _ b w rb c)).
  assert (Fa : ∀ k, while_follow (S (S (S k))) next a w = inr (c, w))
    by (intros k; by rewrite (while_follow_step _ _ a w ra b)).
  destruct Hx as [->|[->| ->]].
  - eapply resolve_last_run; [by apply while_follow_self with ra|apply Fa].
  - eapply resolve_last_run; [by apply while_follow_self with rb|apply Fb].
  - eapply resolve_last_run; [by apply while_follow_self with rc|apply Fc].
Qed.

(** Writing a note changes no link. *)
Lemma top_chain3_with_notes h a b c x rx n :
  top_chain3 h a b c → h !! x = Some rx →
  top_chain3 (<[x := with_notes rx n]> h) a b c.
Proof.
  intros (ra & rb & rc & (Ha & Hb & Hc) & Hm & Hla & Hlb & Hlc) Hx.
  assert (L : ∀ p r, h !! p = Some r →
            ∃ r', <[x := with_notes rx n]> h !! p = Some r'
                  ∧ main r' = main r ∧ prev r' = prev r ∧ next r' = next r).
  { intros p r Hp. destruct (decide (x = p)) as [->|Hne].
    - rewrite lookup_insert_eq. assert (rx = r) as -> by congruence.
      by exists (with_notes r n).
    - rewrite lookup_insert_ne by done. by exists r. }
  destruct (L a ra Ha) as (ra' & Ha' & Ea1 & Ea2 & Ea3).
  destruct (L b rb Hb) as (rb' & Hb' & Eb1 & Eb2 & Eb3).
  destruct (L c rc Hc) as (rc' & Hc' & Ec1 & Ec2 & Ec3).
  exists ra', rb', rc'.
  rewrite Ea1, Ea2, Ea3, Eb1, Eb2, Eb3, Ec1, Ec2, Ec3. done.
Qed.

(** ** Claims on the hooks *)

(** C2.  For three top-level requests [a -> b -> c] linked through
    [next]/[prev], on a chain that has no reference values yet:
    [module_accounting_start] on [c] stores the begin snapshot under the
    reserved key in the notes of [a] (and changes no other request);
    [module_accounting_stop] on [b] then sets the nine metrics, computed
    from that snapshot, in the notes of [c] (and changes no other
    request). *)
Theorem chain_of_three fuel fresh sys1 frame sys2 w a b c ra rc :
  top_chain3 (requests w) a b c →
  (3 ≤ fuel)%nat →
  requests w !! a = Some ra →
  requests w !! c = Some rc →
  notes ra !! notes_key_internal = None →
  ∃ w1 w2,
    module_accounting_start fuel fresh sys1 c w = inr (DECLINED, w1)
    ∧ requests w1
      = <[a := with_notes ra
                 (<[notes_key_internal := NoteData (capture fresh sys1)]>
                    (notes ra))]> (requests w)
    ∧ module_accounting_stop fuel frame sys2 b w1 = inr (DECLINED, w2)
    ∧ requests w2
      = <[c := with_notes rc
                 (publish (capture fresh sys1) (sample frame sys2) (notes rc))]>
          (requests w1).
Proof.
  intros Hch Hfuel Ha Hc Hn.
  destruct fuel as [|[|[|n]]]; [lia..|].
  destruct w as [h lg]. simpl in *.
  destruct (top_chain3_distinct _ _ _ _ Hch) as (Hab & Hbc & Hac).
  pose proof (top_chain3_first h lg a b c n c Hch ltac:(auto)) as Hf.
  pose proof (start_fresh _ fresh sys1 _ _ _ _ _ Hf Ha Hn) as Hstart.
  simpl in Hstart.
  set (ra1 := with_notes ra _) in Hstart.
  set (lg1 := lg ++ _) in Hstart.
  pose proof (top_chain3_with_notes h a b c a ra
                (<[notes_key_internal := NoteData (capture fresh sys1)]> (notes ra))
                Hch Ha) as Hch1.
  fold ra1 in Hch1.
  pose proof (top_chain3_first _ lg1 a b c n b Hch1 ltac:(auto)) as Hf1.
  pose proof (top_chain3_last _ lg1 a b c n b Hch1 ltac:(auto)) as Hl1.
  destruct (stop_present _ frame sys2 _ _ _ _ _ _ ra1 (capture fresh sys1) rc
              Hf1 Hl1) as (dbg & _ & Hstop).
  - apply lookup_insert_eq.
  - apply lookup_insert_eq.
  - simpl. by rewrite lookup_insert_ne.
  - eexists _, _. split; [exact Hstart|]. split; [reflexivity|].
    split; [exact Hstop|]. reflexivity.
Qed.

Lemma chain3_top : top_chain3 (requests chain3) 1%positive 2%positive 3%positive.
Proof. by eexists _, _, _. Qed.

Lemma chain_of_three_witness :
  ∃ w1 w2,
    module_accounting_start 3 (AccData (Timeval 7 7) rusage_zero rusage_zero 9)
      (Syscalls (Some (Timeval 1000 0))
                (Some (Rusage (Timeval 0 500000) timeval_zero 50 0))
                (Some rusage_zero))
      3%positive chain3 = inr (DECLINED, w1)
    ∧ (requests w1 !! 1%positive ≫= λ r, notes r !! notes_key_internal)
      = Some (NoteData (AccData (Timeval 1000 0)
                          (Rusage (Timeval 0 500000) timeval_zero 50 0)
                          rusage_zero 0))
    ∧ module_accounting_stop 3 (Locals timeval_zero rusage_zero rusage_zero)
        (Syscalls (Some (Timeval 1002 250000))
                  (Some (Rusage (Timeval 0 900000) timeval_zero 30 0))
                  (Some rusage_zero))
        2%positive w1 = inr (DECLINED, w2)
    ∧ (requests w2 !! 3%positive ≫= λ r, notes r !! notes_key_time)
      = Some (NoteText "2250000")
    ∧ (requests w2 !! 3%positive ≫= λ r, notes r !! notes_key_utime)
      = Some (NoteText "400000")
    ∧ (requests w2 !! 3%positive ≫= λ r, notes r !! notes_key_inblock)
      = Some (NoteText "0").
Proof.
  destruct (chain_of_three 3 (AccData (Timeval 7 7) rusage_zero rusage_zero 9)
              (Syscalls (Some (Timeval 1000 0))
                        (Some (Rusage (Timeval 0 500000) timeval_zero 50 0))
                        (Some rusage_zero))
              (Locals timeval_zero rusage_zero rusage_zero)
              (Syscalls (Some (Timeval 1002 250000))
                        (Some (Rusage (Timeval 0 900000) timeval_zero 30 0))
                        (Some rusage_zero))
              chain3 1%positive 2%positive 3%positive
              (RequestRec None None (Some 2%positive) ∅)
              (RequestRec None (Some 2%positive) None ∅)
              chain3_top ltac:(lia) eq_refl eq_refl eq_refl)
    as (w1 & w2 & H1 & E1 & H2 & E2).
  exists w1, w2. rewrite E2, E1.
  split; [exact H1|]. split; [vm_compute; reflexivity|].
  split; [exact H2|]. repeat split; vm_compute; reflexivity.
Defined.

(** C7.  When the first request of the chain has nothing under the
    reserved key, [module_accounting_stop] appends exactly one entry to the
    log, the error "Failed to fetch internal data!", writes no note (the
    requests and their notes are all as before), and returns [DECLINED]. *)
Theorem stop_missing fuel frame sys r w first w' last w'' rf :
  resolve_first fuel r w = inr (first, w') →
  resolve_last fuel r w = inr (last, w'') →
  requests w !! first = Some rf →
  notes rf !! notes_key_internal = None →
  ∃ w1,
    module_accounting_stop fuel frame sys r w = inr (DECLINED, w1)
    ∧ requests w1 = requests w
    ∧ log w1 = log w ++ [(APLOG_ERR, MsgText "Failed to fetch internal data!")].
Proof.
  intros Hf Hl Hrf Hn.
  rewrite (stop_absent _ frame sys _ _ _ _ _ _ _ Hf Hl Hrf Hn).
  by eexists.
Qed.

Lemma stop_missing_witness :
  ∃ w1,
    module_accounting_stop 3 (Locals timeval_zero rusage_zero rusage_zero)
      (Syscalls (Some (Timeval 1002 250000)) None None) 2%positive chain3
    = inr (DECLINED, w1)
    ∧ requests w1 = requests chain3
    ∧ log w1 = log chain3 ++ [(APLOG_ERR, MsgText "Failed to fetch internal data!")].
Proof.
  refine (stop_missing 3 _ _ 2%positive chain3 1%positive chain3
            3%positive chain3 (RequestRec None None (Some 2%positive) ∅)
            _ _ _ _); vm_compute; reflexivity.
Defined.

(** C8, as stated, fails: the block for the snapshot comes from
    [apr_palloc], which does not clear it, and a failed query leaves its
    member as the block held it. *)
Lemma start_zero_counterexample :
  let w := World {[ 1%positive := RequestRec None None None ∅ ]} [] in
  let fresh := AccData (Timeval 7 7) rusage_zero rusage_zero 9 in
  let sys := Syscalls None (Some rusage_zero) (Some rusage_zero) in
  ∃ w1 data,
    module_accounting_start 1 fresh sys 1%positive w = inr (DECLINED, w1)
    ∧ (requests w1 !! 1%positive ≫= λ r, notes r !! notes_key_internal)
      = Some (NoteData data)
    ∧ anomalies (log w1)
      = [(APLOG_ERR, MsgText "Request for (begin) time of day failed")]
    ∧ begin_time data = Timeval 7 7
    ∧ begin_time data ≠ timeval_zero.
Proof.
  cbv zeta. eexists _, _. split; [vm_compute; reflexivity|].
  split; [vm_compute; reflexivity|]. split; [vm_compute; reflexivity|].
  split; [reflexivity|]. simpl. discriminate.
Qed.

(** C8 (amended).  In [module_accounting_start] on a chain without
    reference values, each system query that fails (wall-clock time, own
    usage, children's usage) is logged as one error, the hook goes on and
    stores the snapshot and returns [DECLINED], and the member of the
    snapshot that the failed query should have filled keeps what the newly
    allocated block held (the block is not cleared, so this need not be
    zero); the members of the queries that succeeded hold their answers. *)
Theorem start_query_failure fuel fresh sys r w first w' rf :
  resolve_first fuel r w = inr (first, w') →
  requests w !! first = Some rf →
  notes rf !! notes_key_internal = None →
  ∃ w1 rf1 data,
    module_accounting_start fuel fresh sys r w = inr (DECLINED, w1)
    ∧ requests w1 !! first = Some rf1
    ∧ notes rf1 !! notes_key_internal = Some (NoteData data)
    ∧ begin_time data = default (begin_time fresh) (gettimeofday sys)
    ∧ begin_own_usage data = default (begin_own_usage fresh) (getrusage_self sys)
    ∧ begin_child_usage data
      = default (begin_child_usage fresh) (getrusage_children sys)
    ∧ anomalies (log w1) = anomalies (log w) ++ start_errors sys.
Proof.
  intros Hf Hrf Hn.
  rewrite (start_fresh _ fresh sys _ _ _ _ _ Hf Hrf Hn).
  eexists _, _, (capture fresh sys). split; [reflexivity|]. simpl.
  split; [apply lookup_insert_eq|]. split; [apply lookup_insert_eq|].
  do 3 (split; [reflexivity|]).
  rewrite !anomalies_app. simpl. rewrite app_nil_r. f_equal.
  unfold start_errors.
  by destruct (gettimeofday sys), (getrusage_self sys), (getrusage_children sys).
Qed.

Lemma start_query_failure_witness :
  ∃ w1 rf1 data,
    module_accounting_start 3 (AccData (Timeval 7 7) rusage_zero rusage_zero 9)
      (Syscalls None (Some rusage_zero) None) 3%positive chain3
    = inr (DECLINED, w1)
    ∧ requests w1 !! 1%positive = Some rf1
    ∧ notes rf1 !! notes_key_internal = Some (NoteData data)
    ∧ begin_time data = Timeval 7 7
    ∧ begin_own_usage data = rusage_zero
    ∧ begin_child_usage data = rusage_zero
    ∧ anomalies (log w1)
      = [(APLOG_ERR, MsgText "Request for (begin) time of day failed");
         (APLOG_ERR, MsgText "Request for children's (begin) resource usage failed")].
Proof.
  refine (start_query_failure 3 (AccData (Timeval 7 7) rusage_zero rusage_zero 9)
            (Syscalls None (Some rusage_zero) None) 3%positive chain3
            1%positive chain3 (RequestRec None None (Some 2%positive) ∅)
            _ _ _); vm_compute; reflexivity.
Defined.

(** ** What the nine notes hold *)

Ltac key_ne :=
  unfold notes_key_internal, notes_key_time, notes_key_utime, notes_key_stime,
    notes_key_cutime, notes_key_cstime, notes_key_inblock, notes_key_oublock,
    notes_key_cinblock, notes_key_coublock; discriminate.

Lemma notes_key_internal_not_metric : notes_key_internal ∉ metric_keys.
Proof.
  unfold metric_keys. rewrite !elem_of_cons, elem_of_nil. intros H.
  repeat (destruct H as [H|H]; [revert H; key_ne|]). done.
Qed.

Lemma publish_lookup_other data l n k :
  k ∉ metric_keys → publish data l n !! k = n !! k.
Proof.
  unfold metric_keys. rewrite !not_elem_of_cons.
  intros (? & ? & ? & ? & ? & ? & ? & ? & ? & _).
  unfold publish. by rewrite !lookup_insert_ne by (apply not_eq_sym; assumption).
Qed.

Lemma publish_lookup_metric data l n k :
  k ∈ metric_keys →
  ∃ v, v ∈ delta_values data l
       ∧ publish data l n !! k = Some (NoteText (fmt_ld v)).
Proof.
  unfold metric_keys. rewrite !elem_of_cons, elem_of_nil. intros H.
  unfold publish, delta_values.
  repeat (destruct H as [->|H];
          [repeat (rewrite lookup_insert_ne by key_ne); rewrite lookup_insert_eq;
           eexists; split; [|reflexivity]; set_solver|]).
  done.
Qed.

(** ** Non-negative deltas *)

Lemma time_delta_clamped b e : lex_lt e b → time_delta b e = 0.
Proof.
  intros H. unfold time_delta. by rewrite time_difference_backward.
Qed.

Lemma block_delta_clamped b e : b > e → block_delta b e = 0.
Proof.
  intros H. unfold block_delta. by rewrite block_difference_backward.
Qed.







(** ** Frame of [module_accounting_stop] *)

(** The walks read the links only: a note written on a request leaves
    every walk as it is. *)
Lemma while_follow_with_notes field fuel p h lg x rx n lg' q :
  (∀ r m, field (with_notes r m) = field r) →
  h !! x = Some rx →
  while_follow fuel field p (World h lg) = inr (q, World h lg) →
  while_follow fuel field p (World (<[x := with_notes rx n]> h) lg')
  = inr (q, World (<[x := with_notes rx n]> h) lg').
Proof.
  intros Hfield Hx. revert p.
  induction fuel as [|fuel IH]; intros p; simpl; [done|].
  rewrite !bind_run. unfold deref. simpl.
  destruct (decide (x = p)) as [->|Hne].
  - rewrite lookup_insert_eq, Hx, Hfield.
    destruct (field rx) as [q'|]; [apply IH|].
    rewrite !ret_run. congruence.
  - rewrite lookup_insert_ne by done.
    destruct (h !! p) as [r|]; [|done].
    destruct (field r) as [q'|]; [apply IH|].
    rewrite !ret_run. congruence.
Qed.

Lemma resolve_first_with_notes fuel r h lg x rx n lg' a w' :
  h !! x = Some rx →
  resolve_first fuel r (World h lg) = inr (a, w') →
  resolve_first fuel r (World (<[x := with_notes rx n]> h) lg')
  = inr (a, World (<[x := with_notes rx n]> h) lg').
Proof.
  intros Hx (-> & top & H1 & H2)%resolve_first_inv.
  eapply resolve_first_run; (eapply while_follow_with_notes; [done|done|eassumption]).
Qed.

Lemma resolve_last_with_notes fuel r h lg x rx n lg' l w' :
  h !! x = Some rx →
  resolve_last fuel r (World h lg) = inr (l, w') →
  resolve_last fuel r (World (<[x := with_notes rx n]> h) lg')
  = inr (l, World (<[x := with_notes rx n]> h) lg').
Proof.
  intros Hx (-> & top & H1 & H2)%resolve_last_inv.
  eapply resolve_last_run; (eapply while_follow_with_notes; [done|done|eassumption]).
Qed.

(** C4, as stated, fails in its last clause: the call that finds the
    reference values reports nothing.  It returns [DECLINED], the value the
    storing call returned, and it logs nothing, so the host cannot tell the
    two apart. *)
Lemma start_report_counterexample :
  let fresh := AccData timeval_zero rusage_zero rusage_zero 0 in
  let sys := Syscalls (Some (Timeval 1000 0)) (Some rusage_zero)
                      (Some rusage_zero) in
  ∃ ret1 ret2 w2,
    module_accounting_start 3 fresh sys 3%positive chain3
    = inr (ret1, chain3_started)
    ∧ (requests chain3 !! 1%positive ≫= λ r, notes r !! notes_key_internal)
      = None
    ∧ (requests chain3_started !! 1%positive
         ≫= λ r, notes r !! notes_key_internal)
      = Some (NoteData (AccData (Timeval 1000 0) rusage_zero rusage_zero 0))
    ∧ module_accounting_start 3 fresh sys 2%positive chain3_started
      = inr (ret2, w2)
    ∧ ret2 = ret1
    ∧ log w2 = log chain3_started.
Proof.
  cbv zeta. exists DECLINED, DECLINED, chain3_started.
  split; [vm_compute; reflexivity|]. split; [vm_compute; reflexivity|].
  split; [vm_compute; reflexivity|]. split; [vm_compute; reflexivity|].
  split; reflexivity.
Qed.

(** C4 (amended).  [module_accounting_start] is idempotent per chain.  For
    two requests that resolve to the same first request, the first call
    returns [DECLINED] and leaves one value under the reserved key of that
    request: the snapshot it captured when the chain had none, the value
    already there otherwise; no other request is touched.  The second call
    finds the key, neither captures nor overwrites, and is a no-op: it
    returns the same [DECLINED] and leaves the whole state as it is (no
    note written, nothing logged), whatever the system would have
    answered. *)
Theorem start_idempotent fuel1 fresh1 sys1 r1 fuel2 fresh2 sys2 r2 w
    first w' w'' :
  resolve_first fuel1 r1 w = inr (first, w') →
  resolve_first fuel2 r2 w = inr (first, w'') →
  ∃ w1,
    module_accounting_start fuel1 fresh1 sys1 r1 w = inr (DECLINED, w1)
    ∧ module_accounting_start fuel2 fresh2 sys2 r2 w1 = inr (DECLINED, w1)
    ∧ (∀ p, p ≠ first → requests w1 !! p = requests w !! p)
    ∧ ∃ rf rf1 v,
        requests w !! first = Some rf
        ∧ requests w1 !! first = Some rf1
        ∧ notes rf1 !! notes_key_internal = Some v
        ∧ (notes rf !! notes_key_internal = None →
           v = NoteData (capture fresh1 sys1))
        ∧ (∀ v0, notes rf !! notes_key_internal = Some v0 → v = v0).
Proof.
  intros Hf Hf2.
  pose proof Hf as (_ & top & _ & Hw)%resolve_first_inv.
  apply while_follow_end in Hw as (rf & Hrf & _).
  destruct (notes rf !! notes_key_internal) as [v|] eqn:Hv.
  - exists w.
    split; [eapply start_again; [exact Hf|exact Hrf|by exists v]|].
    split; [eapply start_again; [exact Hf2|exact Hrf|by exists v]|].
    split; [done|].
    exists rf, rf, v. repeat split; try done; congruence.
  - rewrite (start_fresh _ fresh1 sys1 _ _ _ _ _ Hf Hrf Hv).
    eexists. split; [reflexivity|].
    destruct w as [h lg]. simpl in *.
    split.
    + eapply start_again.
      * by eapply resolve_first_with_notes.
      * apply lookup_insert_eq.
      * simpl. rewrite lookup_insert_eq. by eexists.
    + split; [intros p Hp; by rewrite lookup_insert_ne|].
      eexists rf, _, _. split; [done|]. split; [apply lookup_insert_eq|].
      split; [apply lookup_insert_eq|]. split; [done|].
      intros v0 Hv0. congruence.
Qed.

Lemma start_idempotent_witness :
  ∃ w1,
    module_accounting_start 3 (AccData (Timeval 7 7) rusage_zero rusage_zero 9)
      (Syscalls (Some (Timeval 1000 0)) None (Some rusage_zero))
      3%positive chain3 = inr (DECLINED, w1)
    ∧ module_accounting_start 3 (AccData (Timeval 8 8) rusage_zero rusage_zero 9)
        (Syscalls None None None) 2%positive w1 = inr (DECLINED, w1)
    ∧ (requests w1 !! 1%positive ≫= λ r, notes r !! notes_key_internal)
      = Some (NoteData (AccData (Timeval 1000 0) rusage_zero rusage_zero 0)).
Proof.
  destruct (start_idempotent 3
              (AccData (Timeval 7 7) rusage_zero rusage_zero 9)
              (Syscalls (Some (Timeval 1000 0)) None (Some rusage_zero))
              3%positive 3
              (AccData (Timeval 8 8) rusage_zero rusage_zero 9)
              (Syscalls None None None) 2%positive
              chain3 1%positive chain3 chain3)
    as (w1 & H1 & H2 & _ & rf & rf1 & v & Hrf & Hrf1 & Hv & Hnew & _);
    [vm_compute; reflexivity..|].
  exists w1. split; [exact H1|]. split; [exact H2|].
  unfold ptr in *. rewrite Hrf1. simpl. rewrite Hv. f_equal. apply Hnew.
  assert (rf = RequestRec None None (Some 2%positive) ∅) as ->
    by (apply (inj Some); rewrite <- Hrf; vm_compute; reflexivity).
  vm_compute; reflexivity.
Defined.

(** C10.  With the reference values in place, [module_accounting_stop]
    sets the nine metric keys in the notes of the last request and changes
    nothing else: the links and every other key of the last request, and
    every other request, are as before.  The reserved key of the first
    request still holds the same snapshot, so a second call on the same
    request finds it and sets the nine notes again, computed from it. *)
Theorem stop_frame fuel frame sys frame2 sys2 r w first w' last w'' rf data :
  resolve_first fuel r w = inr (first, w') →
  resolve_last fuel r w = inr (last, w'') →
  requests w !! first = Some rf →
  notes rf !! notes_key_internal = Some (NoteData data) →
  ∃ w1 rl rl1,
    module_accounting_stop fuel frame sys r w = inr (DECLINED, w1)
    ∧ requests w !! last = Some rl
    ∧ requests w1 !! last = Some rl1
    ∧ (∀ k, k ∈ metric_keys → ∃ v, notes rl1 !! k = Some (NoteText (fmt_ld v)))
    ∧ (∀ k, k ∉ metric_keys → notes rl1 !! k = notes rl !! k)
    ∧ (main rl1 = main rl ∧ prev rl1 = prev rl ∧ next rl1 = next rl)
    ∧ (∀ p, p ≠ last → requests w1 !! p = requests w !! p)
    ∧ (∃ rf1, requests w1 !! first = Some rf1
              ∧ notes rf1 !! notes_key_internal = Some (NoteData data))
    ∧ (∃ w2,
         module_accounting_stop fuel frame2 sys2 r w1 = inr (DECLINED, w2)
         ∧ requests w2
           = <[last := with_notes rl1
                         (publish data (sample frame2 sys2) (notes rl1))]>
               (requests w1)).
Proof.
  intros Hf Hl Hrf Hd.
  pose proof Hl as (_ & top & _ & Hw)%resolve_last_inv.
  apply while_follow_end in Hw as (rl & Hrl & _).
  destruct (stop_present _ frame sys _ _ _ _ _ _ _ _ _ Hf Hl Hrf Hd Hrl)
    as (dbg & _ & Hstop).
  destruct w as [h lg]. simpl in *.
  set (n1 := publish data (sample frame sys) (notes rl)) in *.
  set (lg1 := lg ++ _) in Hstop.
  assert (Hfirst1 : ∃ rf1, <[last := with_notes rl n1]> h !! first = Some rf1
            ∧ notes rf1 !! notes_key_internal = Some (NoteData data)).
  { destruct (decide (last = first)) as [->|Hne].
    - rewrite lookup_insert_eq. eexists. split; [done|]. simpl.
      assert (rl = rf) as -> by congruence.
      unfold n1. by rewrite publish_lookup_other
        by apply notes_key_internal_not_metric.
    - rewrite lookup_insert_ne by done. by exists rf. }
  eexists _, rl, (with_notes rl n1). split; [exact Hstop|]. simpl.
  split; [done|]. split; [apply lookup_insert_eq|].
  split; [|split; [|split; [|split; [|split]]]].
  - intros k Hk.
    destruct (publish_lookup_metric data (sample frame sys) (notes rl) k Hk)
      as (v & _ & Hv). by exists v.
  - intros k Hk. by apply publish_lookup_other.
  - done.
  - intros p Hp. by rewrite lookup_insert_ne.
  - exact Hfirst1.
  - destruct Hfirst1 as (rf1 & Hrf1 & Hd1).
    pose proof (resolve_first_with_notes _ _ _ _ last rl n1 lg1 _ _ Hrl Hf) as Hf1.
    pose proof (resolve_last_with_notes _ _ _ _ last rl n1 lg1 _ _ Hrl Hl) as Hl1.
    destruct (stop_present _ frame2 sys2 _ _ _ _ _ _ rf1 data (with_notes rl n1)
                Hf1 Hl1 Hrf1 Hd1) as (dbg2 & _ & Hstop2).
    { apply lookup_insert_eq. }
    eexists. split; [exact Hstop2|]. reflexivity.
Qed.

Lemma stop_frame_witness :
  ∃ w1 rl rl1,
    module_accounting_stop 3 (Locals timeval_zero rusage_zero rusage_zero)
      (Syscalls (Some (Timeval 1002 250000)) (Some rusage_zero) None)
      2%positive chain3_started = inr (DECLINED, w1)
    ∧ requests chain3_started !! 3%positive = Some rl
    ∧ requests w1 !! 3%positive = Some rl1
    ∧ (∀ k, k ∈ metric_keys → ∃ v, notes rl1 !! k = Some (NoteText (fmt_ld v)))
    ∧ (∀ k, k ∉ metric_keys → notes rl1 !! k = notes rl !! k)
    ∧ (main rl1 = main rl ∧ prev rl1 = prev rl ∧ next rl1 = next rl)
    ∧ (∀ p, p ≠ 3%positive → requests w1 !! p = requests chain3_started !! p)
    ∧ (∃ rf1, requests w1 !! 1%positive = Some rf1
              ∧ notes rf1 !! notes_key_internal
                = Some (NoteData (AccData (Timeval 1000 0) rusage_zero
                                    rusage_zero 0)))
    ∧ (∃ w2,
         module_accounting_stop 3 (Locals timeval_zero rusage_zero rusage_zero)
           (Syscalls (Some (Timeval 1005 0)) None None) 2%positive w1
         = inr (DECLINED, w2)
         ∧ requests w2
           = <[3%positive :=
                 with_notes rl1
                   (publish (AccData (Timeval 1000 0) rusage_zero rusage_zero 0)
                      (sample (Locals timeval_zero rusage_zero rusage_zero)
                         (Syscalls (Some (Timeval 1005 0)) None None))
                      (notes rl1))]> (requests w1)).
Proof.
  refine (stop_frame 3 (Locals timeval_zero rusage_zero rusage_zero)
            (Syscalls (Some (Timeval 1002 250000)) (Some rusage_zero) None)
            (Locals timeval_zero rusage_zero rusage_zero)
            (Syscalls (Some (Timeval 1005 0)) None None)
            2%positive chain3_started 1%positive chain3_started
            3%positive chain3_started
            (RequestRec None None (Some 2%positive)
               (<[notes_key_internal :=
                    NoteData (AccData (Timeval 1000 0) rusage_zero rusage_zero 0)]> ∅))
            (AccData (Timeval 1000 0) rusage_zero rusage_zero 0)
            _ _ _ _); vm_compute; reflexivity.
Defined.

(* ===================================================================== *)
(** * Further properties of the code *)
(* ===================================================================== *)

(** ** The delta functions *)

Lemma lex_le_trans a b c : lex_le a b → lex_le b c → lex_le a c.
Proof. unfold lex_le. lia. Qed.

Lemma exact_usec_split a b c :
  exact_usec a c = exact_usec a b + exact_usec b c.
Proof. unfold exact_usec. lia. Qed.

Lemma wrap64_add a b : wrap64 (wrap64 a + wrap64 b) = wrap64 (a + b).
Proof.
  apply wrap64_congr. by rewrite Zplus_mod, !wrap64_mod, <- Zplus_mod.
Qed.

(** X1.  The sanity check of [time_difference] is a strict total order on time
    values: it never flags both directions of a pair, it flags one of them
    unless the two values are equal, and it is transitive. *)
Theorem timetravel_strict_total_order :
  (∀ b e, timetravel b e = true → timetravel e b = false)
  ∧ (∀ b e, timetravel b e = false → timetravel e b = false → b = e)
  ∧ (∀ a b c, timetravel b a = true → timetravel c b = true →
              timetravel c a = true).
Proof.
  split; [|split].
  - intros b e H%timetravel_true. apply timetravel_false.
    unfold lex_lt, lex_le in *. lia.
  - intros [bs bu] [es eu] H1%timetravel_false H2%timetravel_false.
    unfold lex_le in *. simpl in *. f_equal; lia.
  - intros a b c H1%timetravel_true H2%timetravel_true. apply timetravel_true.
    unfold lex_lt in *. lia.
Qed.

(** X2.  Deltas add up along a forward sequence of times [a <= b <= c]: the
    value for [(a, c)] is the sum of the values for [(a, b)] and [(b, c)],
    reduced into the 64-bit range; it is the plain sum when the microsecond
    members are normalised and the exact difference from [a] to [c] does
    not exceed [LONG_MAX]. *)
Theorem time_difference_additive a b c lg1 lg2 lg3 :
  lex_le a b → lex_le b c →
  fst (time_difference a c lg3)
  = wrap64 (fst (time_difference a b lg1) + fst (time_difference b c lg2))
  ∧ (usec_ok a → usec_ok b → usec_ok c → exact_usec a c <= LONG_MAX →
     fst (time_difference a c lg3)
     = fst (time_difference a b lg1) + fst (time_difference b c lg2)).
Proof.
  intros Hab Hbc. pose proof (lex_le_trans _ _ _ Hab Hbc) as Hac.
  rewrite !time_difference_forward by done. simpl.
  split.
  - by rewrite wrap64_add, <- exact_usec_split.
  - intros Ua Ub Uc Hmax.
    assert (0 <= exact_usec a b ∧ 0 <= exact_usec b c)
      by (unfold exact_usec, lex_le, usec_ok in *; lia).
    pose proof (exact_usec_split a b c).
    rewrite !wrap64_id; [lia|unfold in_long, LONG_MIN, LONG_MAX in *; lia..].
Qed.

Lemma time_difference_additive_witness :
  fst (time_difference (Timeval 10 900000) (Timeval 13 100000) [])
  = fst (time_difference (Timeval 10 900000) (Timeval 11 0) [])
    + fst (time_difference (Timeval 11 0) (Timeval 13 100000) []).
Proof.
  refine (proj2 (time_difference_additive (Timeval 10 900000) (Timeval 11 0)
                   (Timeval 13 100000) [] [] [] _ _) _ _ _ _);
    unfold lex_le, usec_ok, exact_usec, LONG_MAX; simpl; lia.
Defined.

(** X3.  Block deltas add up along non-decreasing non-negative counters. *)
Theorem block_difference_additive a b c lg1 lg2 lg3 :
  0 <= a → a <= b → b <= c → c <= LONG_MAX →
  fst (block_difference a c lg3)
  = fst (block_difference a b lg1) + fst (block_difference b c lg2).
Proof.
  intros Ha Hab Hbc Hc.
  rewrite !block_difference_forward by lia. simpl.
  rewrite !wrap64_id; [lia|unfold in_long, LONG_MIN, LONG_MAX in *; lia..].
Qed.

Lemma block_difference_additive_witness :
  fst (block_difference 5 50 [])
  = fst (block_difference 5 30 []) + fst (block_difference 30 50 []).
Proof.
  refine (block_difference_additive 5 30 50 [] [] [] _ _ _ _);
    unfold LONG_MAX; lia.
Defined.

(** X4.  For normalised times whose exact difference does not exceed
    [LONG_MAX], [time_difference] returns 0 exactly when [end] is not later
    than [begin]: a zero stands for equal times as well as for a clamped
    anomaly, and a later [end] always gives a positive value. *)
Theorem time_difference_zero_iff b e lg :
  usec_ok b → usec_ok e → exact_usec b e <= LONG_MAX →
  (fst (time_difference b e lg) = 0 ↔ ¬ lex_lt b e)
  ∧ (lex_lt b e → 0 < fst (time_difference b e lg)).
Proof.
  intros Ub Ue Hmax.
  assert (Hpos : lex_lt b e → 0 < fst (time_difference b e lg)).
  { intros Hlt.
    assert (Hle : lex_le b e) by (unfold lex_lt, lex_le in *; lia).
    rewrite time_difference_forward by done. simpl.
    assert (0 < exact_usec b e)
      by (unfold exact_usec, lex_lt, usec_ok in *; lia).
    rewrite wrap64_id; [done|unfold in_long, LONG_MIN, LONG_MAX in *; lia]. }
  split; [|done]. split.
  - intros H0 Hlt. apply Hpos in Hlt. lia.
  - intros Hn. destruct (timetravel b e) eqn:Htt.
    + apply timetravel_true in Htt. by rewrite time_difference_backward.
    + apply timetravel_false in Htt.
      assert (b = e) as ->.
      { destruct b, e. unfold lex_le, lex_lt in *. simpl in *. f_equal; lia. }
      rewrite time_difference_forward by done. simpl.
      unfold exact_usec. by replace (_ + _) with 0 by lia.
Qed.

Lemma time_difference_zero_iff_witness :
  0 < fst (time_difference (Timeval 10 900000) (Timeval 11 0) []).
Proof.
  refine (proj2 (time_difference_zero_iff (Timeval 10 900000) (Timeval 11 0) []
                   _ _ _) _);
    unfold lex_lt, usec_ok, exact_usec, LONG_MAX; simpl; lia.
Defined.

(** ** The walks *)

Lemma while_follow_reaches fuel field p w q w' :
  while_follow fuel field p w = inr (q, w') →
  rtc (edge field (requests w)) p q.
Proof.
  revert p. induction fuel as [|fuel IH]; intros p; simpl; [done|].
  rewrite bind_run. unfold deref.
  destruct (requests w !! p) as [r|] eqn:Hp; [|done].
  destruct (field r) as [q'|] eqn:Hf.
  - intros H. eapply rtc_l; [by exists r|by apply IH].
  - rewrite ret_run. by intros [= <- _].
Qed.

Lemma while_follow_mono fuel fuel' field p w res :
  (fuel ≤ fuel')%nat →
  while_follow fuel field p w = inr res →
  while_follow fuel' field p w = inr res.
Proof.
  revert fuel' p. induction fuel as [|fuel IH]; intros fuel' p Hle; [done|].
  destruct fuel' as [|fuel']; [lia|]. simpl.
  rewrite !bind_run. unfold deref.
  destruct (requests w !! p) as [r|]; [|done].
  destruct (field r); [|done]. apply IH. lia.
Qed.

(** Links are functions: from one request there is one way down a chain. *)
Lemma edge_functional field h p q q' :
  edge field h p q → edge field h p q' → q = q'.
Proof. intros (r & ? & ?) (r' & ? & ?). congruence. Qed.

(** X5.  The loop [while (p->field) p = p->field;] returns [q] exactly when [q]
    is the request without [field] that the links lead to from [p]: what it
    returns is reachable and is an end, and any reachable end is returned
    once the fuel covers the steps to it. *)
Theorem while_follow_spec field p q w :
  (∃ fuel, while_follow fuel field p w = inr (q, w))
  ↔ rtc (edge field (requests w)) p q
    ∧ ∃ rq, requests w !! q = Some rq ∧ field rq = None.
Proof.
  split.
  - intros [fuel H]. split; [by eapply while_follow_reaches|].
    by eapply while_follow_end.
  - intros [Hreach (rq & Hq & Hend)].
    induction Hreach as [p|p p' q (r & Hp & Hf) _ IH].
    + exists 1%nat. by apply while_follow_self with rq.
    + destruct (IH Hq) as [fuel Hfuel]. exists (S fuel).
      by rewrite (while_follow_step _ _ _ _ _ _ Hp Hf).
Qed.

(** ** The hooks read the request through its chain ends only *)

Lemma start_by_first fuel fuel' fresh sys r r' w a w1 w2 :
  resolve_first fuel r w = inr (a, w1) →
  resolve_first fuel' r' w = inr (a, w2) →
  module_accounting_start fuel fresh sys r w
  = module_accounting_start fuel' fresh sys r' w.
Proof.
  intros (-> & top & H1 & H2)%resolve_first_inv
         (-> & top' & H1' & H2')%resolve_first_inv.
  unfold module_accounting_start.
  by rewrite (bind_inr _ _ _ _ _ H1), (bind_inr _ _ _ _ _ H2),
    (bind_inr _ _ _ _ _ H1'), (bind_inr _ _ _ _ _ H2').
Qed.

Lemma stop_by_ends fuel fuel' frame sys r r' w a l w1 w2 w3 w4 :
  resolve_first fuel r w = inr (a, w1) →
  resolve_last fuel r w = inr (l, w2) →
  resolve_first fuel' r' w = inr (a, w3) →
  resolve_last fuel' r' w = inr (l, w4) →
  module_accounting_stop fuel frame sys r w
  = module_accounting_stop fuel' frame sys r' w.
Proof.
  intros (-> & top & H1 & H2)%resolve_first_inv
         (-> & top0 & H10 & H3)%resolve_last_inv
         (-> & top' & H1' & H2')%resolve_first_inv
         (-> & top0' & H10' & H3')%resolve_last_inv.
  assert (top0 = top) as -> by congruence.
  assert (top0' = top') as -> by congruence.
  unfold module_accounting_stop.
  by rewrite (bind_inr _ _ _ _ _ H1), (bind_inr _ _ _ _ _ H2),
    (bind_inr _ _ _ _ _ H3), (bind_inr _ _ _ _ _ H1'),
    (bind_inr _ _ _ _ _ H2'), (bind_inr _ _ _ _ _ H3').
Qed.

(** What a returned [module_accounting_start] went through. *)
Lemma start_cases fuel fresh sys r w ret w1 :
  module_accounting_start fuel fresh sys r w = inr (ret, w1) →
  ∃ a ra,
    resolve_first fuel r w = inr (a, w)
    ∧ requests w !! a = Some ra
    ∧ ret = DECLINED
    ∧ ((is_Some (notes ra !! notes_key_internal) ∧ w1 = w)
       ∨ (notes ra !! notes_key_internal = None
          ∧ w1 = World (<[a := with_notes ra
                               (<[notes_key_internal :=
                                    NoteData (capture fresh sys)]> (notes ra))]>
                          (requests w))
                       (log w ++ start_errors sys
                          ++ start_debug (capture fresh sys)))).
Proof.
  intros H.
  assert (∃ a ra, resolve_first fuel r w = inr (a, w)
                  ∧ requests w !! a = Some ra) as (a & ra & Hf & Ha).
  { unfold module_accounting_start in H. rewrite bind_run in H.
    destruct (while_follow fuel main r w) as [|[top w0]] eqn:H1; [done|].
    pose proof (while_follow_pure _ _ _ _ _ _ H1) as ->.
    rewrite bind_run in H.
    destruct (while_follow fuel prev top w) as [|[a w0]] eqn:H2; [done|].
    pose proof (while_follow_pure _ _ _ _ _ _ H2) as ->.
    destruct (while_follow_end _ _ _ _ _ _ H2) as (ra & Ha & _).
    exists a, ra. split; [by eapply resolve_first_run|done]. }
  exists a, ra. split; [done|]. split; [done|].
  destruct (notes ra !! notes_key_internal) as [v|] eqn:Hn.
  - rewrite (start_again _ fresh sys _ _ _ _ _ Hf Ha (mk_is_Some _ _ Hn)) in H.
    injection H as <- <-. split; [done|]. left. eauto.
  - rewrite (start_fresh _ fresh sys _ _ _ _ _ Hf Ha Hn) in H.
    injection H as <- <-. split; [done|]. by right.
Qed.

Lemma stop_badcast fuel frame sys r w a w' l w'' ra s :
  resolve_first fuel r w = inr (a, w') →
  resolve_last fuel r w = inr (l, w'') →
  requests w !! a = Some ra →
  notes ra !! notes_key_internal = Some (NoteText s) →
  module_accounting_stop fuel frame sys r w = inl BadCast.
Proof.
  intros (-> & top & H1 & H2)%resolve_first_inv
         (-> & top' & H1' & H3)%resolve_last_inv Ha Hd.
  assert (top' = top) as -> by congruence.
  unfold module_accounting_stop.
  rewrite (bind_inr _ _ _ _ _ H1), (bind_inr _ _ _ _ _ H2),
    (bind_inr _ _ _ _ _ H3).
  by rewrite (bind_inr _ _ _ _ _ (apr_table_get_run _ _ _ _ Ha)), Hd.
Qed.

(** What a returned [module_accounting_stop] went through. *)
Lemma stop_cases fuel frame sys r w ret w1 :
  module_accounting_stop fuel frame sys r w = inr (ret, w1) →
  ∃ a l ra rl,
    resolve_first fuel r w = inr (a, w)
    ∧ resolve_last fuel r w = inr (l, w)
    ∧ requests w !! a = Some ra
    ∧ requests w !! l = Some rl
    ∧ ret = DECLINED
    ∧ ((notes ra !! notes_key_internal = None
        ∧ w1 = World (requests w)
                 (log w ++ [(APLOG_ERR, MsgText "Failed to fetch internal data!")]))
       ∨ (∃ data dbg,
            notes ra !! notes_key_internal = Some (NoteData data)
            ∧ anomalies dbg = []
            ∧ w1 = World (<[l := with_notes rl
                                   (publish data (sample frame sys) (notes rl))]>
                            (requests w))
                         (log w ++ stop_errors sys ++ dbg
                            ++ delta_log data (sample frame sys)))).
Proof.
  intros H.
  assert (∃ a l ra rl, resolve_first fuel r w = inr (a, w)
            ∧ resolve_last fuel r w = inr (l, w)
            ∧ requests w !! a = Some ra ∧ requests w !! l = Some rl)
    as (a & l & ra & rl & Hf & Hl & Ha & Hrl).
  { unfold module_accounting_stop in H. rewrite bind_run in H.
    destruct (while_follow fuel main r w) as [|[top w0]] eqn:H1; [done|].
    pose proof (while_follow_pure _ _ _ _ _ _ H1) as ->.
    rewrite bind_run in H.
    destruct (while_follow fuel prev top w) as [|[a w0]] eqn:H2; [done|].
    pose proof (while_follow_pure _ _ _ _ _ _ H2) as ->.
    rewrite bind_run in H.
    destruct (while_follow fuel next top w) as [|[l w0]] eqn:H3; [done|].
    pose proof (while_follow_pure _ _ _ _ _ _ H3) as ->.
    destruct (while_follow_end _ _ _ _ _ _ H2) as (ra & Ha & _).
    destruct (while_follow_end _ _ _ _ _ _ H3) as (rl & Hrl & _).
    exists a, l, ra, rl.
    split; [by eapply resolve_first_run|].
    split; [by eapply resolve_last_run|done]. }
  exists a, l, ra, rl. do 4 (split; [done|]).
  destruct (notes ra !! notes_key_internal) as [[s|data]|] eqn:Hn.
  - by rewrite (stop_badcast _ frame sys _ _ _ _ _ _ _ _ Hf Hl Ha Hn) in H.
  - destruct (stop_present _ frame sys _ _ _ _ _ _ _ _ _ Hf Hl Ha Hn Hrl)
      as (dbg & Hdbg & Hstop).
    rewrite Hstop in H. injection H as <- <-.
    split; [done|]. right. by exists data, dbg.
  - rewrite (stop_absent _ frame sys _ _ _ _ _ _ _ Hf Hl Ha Hn) in H.
    injection H as <- <-. split; [done|]. by left.
Qed.

(** ** The link structure *)

Lemma link_map_with_notes h x rx n :
  h !! x = Some rx → link_map (<[x := with_notes rx n]> h) = link_map h.
Proof.
  intros Hx. unfold link_map. rewrite fmap_insert. apply insert_id.
  by rewrite lookup_fmap, Hx.
Qed.

Lemma link_map_lookup h h' p r :
  link_map h = link_map h' → h !! p = Some r →
  ∃ r', h' !! p = Some r' ∧ links r' = links r.
Proof.
  intros E Hp.
  assert (H : link_map h !! p = Some (links r))
    by (unfold link_map; by rewrite lookup_fmap, Hp).
  rewrite E in H. unfold link_map in H. rewrite lookup_fmap in H.
  destruct (h' !! p) as [r'|]; simpl in H; [|done].
  exists r'. split; [done|]. congruence.
Qed.

Lemma link_map_size h h' : link_map h = link_map h' → size h = size h'.
Proof.
  intros E. rewrite <- (map_size_fmap links h), <- (map_size_fmap links h').
  unfold link_map in E. by rewrite E.
Qed.

Lemma main_is_link : is_link main.
Proof. by intros r r' [= ? ? ?]. Qed.

Lemma prev_is_link : is_link prev.
Proof. by intros r r' [= ? ? ?]. Qed.

Lemma next_is_link : is_link next.
Proof. by intros r r' [= ? ? ?]. Qed.

Lemma edge_link_map field h h' p q :
  is_link field → link_map h = link_map h' →
  edge field h p q → edge field h' p q.
Proof.
  intros Hfield E (r & Hp & Hf).
  destruct (link_map_lookup _ _ _ _ E Hp) as (r' & Hp' & Hl).
  exists r'. split; [done|]. by rewrite (Hfield _ _ Hl).
Qed.

Lemma closed_link_map field h h' :
  is_link field → link_map h = link_map h' → closed field h → closed field h'.
Proof.
  intros Hfield E Hcl p r' q Hp Hf.
  destruct (link_map_lookup _ _ _ _ (eq_sym E) Hp) as (r & Hr & Hl).
  destruct (Hcl p r q Hr) as [rq Hq].
  { by rewrite (Hfield _ _ Hl). }
  destruct (link_map_lookup _ _ _ _ E Hq) as (rq' & Hq' & _). eauto.
Qed.

Lemma acyclic_link_map field h h' :
  is_link field → link_map h = link_map h' → acyclic field h → acyclic field h'.
Proof.
  intros Hfield E Hac p Hcyc. apply (Hac p).
  assert (Hsub : ∀ x y, tc (edge field h') x y → tc (edge field h) x y).
  { induction 1 as [x y H|x y z H _ IH].
    - apply tc_once. by eapply edge_link_map.
    - eapply tc_l; [|exact IH]. by eapply edge_link_map. }
  by apply Hsub.
Qed.

Lemma chain_graph_link_map h h' :
  link_map h = link_map h' → chain_graph h → chain_graph h'.
Proof.
  intros E [(Cm & Cp & Cn) (Am & Ap & An)].
  repeat split;
    eauto using closed_link_map, acyclic_link_map,
      main_is_link, prev_is_link, next_is_link.
Qed.

Lemma while_follow_link_map field fuel h lg h' lg' p q w0 :
  is_link field → link_map h = link_map h' →
  while_follow fuel field p (World h lg) = inr (q, w0) →
  while_follow fuel field p (World h' lg') = inr (q, World h' lg').
Proof.
  intros Hfield E. revert p.
  induction fuel as [|fuel IH]; intros p; simpl; [done|].
  rewrite !bind_run. unfold deref. simpl.
  destruct (h !! p) as [r|] eqn:Hp; [|done].
  destruct (link_map_lookup _ _ _ _ E Hp) as (r' & -> & Hl).
  rewrite (Hfield _ _ Hl).
  destruct (field r) as [q'|]; [apply IH|].
  rewrite !ret_run. congruence.
Qed.

Lemma resolve_first_link_map fuel r h lg h' lg' a w0 :
  link_map h = link_map h' →
  resolve_first fuel r (World h lg) = inr (a, w0) →
  resolve_first fuel r (World h' lg') = inr (a, World h' lg').
Proof.
  intros E (-> & top & H1 & H2)%resolve_first_inv.
  eapply resolve_first_run;
    eauto using while_follow_link_map, main_is_link, prev_is_link.
Qed.

Lemma resolve_last_link_map fuel r h lg h' lg' l w0 :
  link_map h = link_map h' →
  resolve_last fuel r (World h lg) = inr (l, w0) →
  resolve_last fuel r (World h' lg') = inr (l, World h' lg').
Proof.
  intros E (-> & top & H1 & H2)%resolve_last_inv.
  eapply resolve_last_run;
    eauto using while_follow_link_map, main_is_link, next_is_link.
Qed.

(** ** One hook call *)

Lemma run_hook_step c w ret w1 :
  run_hook c w = inr (ret, w1) →
  ret = DECLINED
  ∧ link_map (requests w1) = link_map (requests w)
  ∧ (∃ lg, log w1 = log w ++ lg)
  ∧ snapshots_kept w w1
  ∧ (snapshots_typed (requests w) → snapshots_typed (requests w1)).
Proof.
  destruct c as [fuel fresh sys r|fuel frame sys r]; simpl; intros H.
  - apply start_cases in H
      as (a & ra & Hf & Ha & -> & [[Hs ->]|[Hn ->]]).
    + split; [done|]. split; [done|].
      split; [exists []; by rewrite app_nil_r|].
      split; [intros p r0 v ? ?; eauto|done].
    + simpl. split; [done|]. split; [by apply link_map_with_notes|].
      split; [by eexists|]. split.
      * intros p r0 v Hp Hv. simpl.
        destruct (decide (a = p)) as [->|Hne]; [congruence|].
        rewrite lookup_insert_ne by done. eauto.
      * intros T p r0 v Hp Hv.
        apply lookup_insert_Some in Hp as [[<- <-]|[? Hp]]; [|by eapply T].
        simpl in Hv. rewrite lookup_insert_eq in Hv. injection Hv as <-. eauto.
  - apply stop_cases in H
      as (a & l & ra & rl & Hf & Hl & Ha & Hrl & -> &
          [[Hn ->]|(data & dbg & Hd & Hdbg & ->)]).
    + simpl. split; [done|]. split; [done|]. split; [by eexists|].
      split; [intros p r0 v ? ?; eauto|done].
    + simpl. split; [done|]. split; [by apply link_map_with_notes|].
      split; [by eexists|]. split.
      * intros p r0 v Hp Hv. simpl.
        destruct (decide (l = p)) as [->|Hne].
        -- rewrite lookup_insert_eq. eexists. split; [done|]. simpl.
           rewrite publish_lookup_other by apply notes_key_internal_not_metric.
           congruence.
        -- rewrite lookup_insert_ne by done. eauto.
      * intros T p r0 v Hp Hv.
        apply lookup_insert_Some in Hp as [[<- <-]|[? Hp]]; [|by eapply T].
        simpl in Hv.
        rewrite publish_lookup_other in Hv
          by apply notes_key_internal_not_metric.
        by eapply T.
Qed.

Lemma run_hooks_cons_inv c cs w u w1 :
  run_hooks (c :: cs) w = inr (u, w1) →
  ∃ ret w0, run_hook c w = inr (ret, w0) ∧ run_hooks cs w0 = inr (u, w1).
Proof.
  simpl. rewrite bind_run.
  destruct (run_hook c w) as [|[ret w0]]; [done|]. eauto.
Qed.

Lemma run_hooks_steps cs w u w1 :
  run_hooks cs w = inr (u, w1) →
  link_map (requests w1) = link_map (requests w)
  ∧ (∃ lg, log w1 = log w ++ lg)
  ∧ snapshots_kept w w1
  ∧ (snapshots_typed (requests w) → snapshots_typed (requests w1)).
Proof.
  revert w. induction cs as [|c cs IH]; intros w H.
  - simpl in H. rewrite ret_run in H. injection H as <- <-.
    split; [done|]. split; [exists []; by rewrite app_nil_r|].
    split; [intros p r v ? ?; eauto|done].
  - apply run_hooks_cons_inv in H as (ret & w0 & H0 & Hrest).
    apply run_hook_step in H0 as (_ & E0 & [lg0 L0] & K0 & T0).
    apply IH in Hrest as (E1 & [lg1 L1] & K1 & T1).
    split; [congruence|].
    split; [exists (lg0 ++ lg1); by rewrite L1, L0, app_assoc|].
    split; [|auto].
    intros p r v Hp Hv. destruct (K0 p r v Hp Hv) as (r0 & Hp0 & Hv0).
    by apply (K1 p r0 v).
Qed.

Lemma start_total fuel fresh sys r w :
  chain_graph (requests w) → is_Some (requests w !! r) →
  (size (requests w) < fuel)%nat →
  ∃ w1, module_accounting_start fuel fresh sys r w = inr (DECLINED, w1).
Proof.
  intros [(Cm & Cp & Cn) (Am & Ap & An)] Hr Hsz.
  destruct (while_follow_terminates main w fuel r Cm Am Hr Hsz)
    as (top & rt & Htop & Hrt & _).
  destruct (while_follow_terminates prev w fuel top Cp Ap (mk_is_Some _ _ Hrt) Hsz)
    as (a & ra & Ha & Hra & _).
  pose proof (resolve_first_run _ _ _ _ _ Htop Ha) as Hf.
  destruct (notes ra !! notes_key_internal) as [v|] eqn:Hn.
  - exists w. eapply start_again; [exact Hf|exact Hra|by exists v].
  - eexists. by eapply start_fresh.
Qed.

Lemma stop_total fuel frame sys r w :
  chain_graph (requests w) → snapshots_typed (requests w) →
  is_Some (requests w !! r) → (size (requests w) < fuel)%nat →
  ∃ w1, module_accounting_stop fuel frame sys r w = inr (DECLINED, w1).
Proof.
  intros [(Cm & Cp & Cn) (Am & Ap & An)] Ht Hr Hsz.
  destruct (while_follow_terminates main w fuel r Cm Am Hr Hsz)
    as (top & rt & Htop & Hrt & _).
  destruct (while_follow_terminates prev w fuel top Cp Ap (mk_is_Some _ _ Hrt) Hsz)
    as (a & ra & Ha & Hra & _).
  destruct (while_follow_terminates next w fuel top Cn An (mk_is_Some _ _ Hrt) Hsz)
    as (l & rl & Hl & Hrl & _).
  pose proof (resolve_first_run _ _ _ _ _ Htop Ha) as Hf.
  pose proof (resolve_last_run _ _ _ _ _ Htop Hl) as Hla.
  destruct (notes ra !! notes_key_internal) as [v|] eqn:Hn.
  - destruct (Ht a ra v Hra Hn) as [data ->].
    destruct (stop_present _ frame sys _ _ _ _ _ _ _ _ _ Hf Hla Hra Hn Hrl)
      as (dbg & _ & Hstop). eauto.
  - eexists. by eapply stop_absent.
Qed.

Lemma call_ok_link_map w w0 c :
  link_map (requests w0) = link_map (requests w) → call_ok w c → call_ok w0 c.
Proof.
  intros E [[r Hr] Hsz]. split.
  - destruct (link_map_lookup _ _ _ _ (eq_sym E) Hr) as (r' & Hr' & _). eauto.
  - by rewrite (link_map_size _ _ E).
Qed.

(** ** Properties of the hooks under any sequence of calls *)

(** X6.  Every return of either hook is [DECLINED]: the module never takes a
    request over and never reports an error to the host, whatever the
    system calls answer and whether or not the reference values exist. *)
Theorem hook_declines c w ret w1 :
  run_hook c w = inr (ret, w1) → ret = DECLINED.
Proof. intros H. by apply run_hook_step in H as (-> & _). Qed.

Lemma hook_declines_witness :
  ∃ ret w1,
    run_hook (CallStop 3 (Locals timeval_zero rusage_zero rusage_zero)
                (Syscalls None None None) 2%positive) chain3 = inr (ret, w1)
    ∧ ret = DECLINED.
Proof.
  assert (H : ∃ ret w1,
    run_hook (CallStop 3 (Locals timeval_zero rusage_zero rusage_zero)
                (Syscalls None None None) 2%positive) chain3 = inr (ret, w1))
    by (eexists _, _; vm_compute; reflexivity).
  destruct H as (ret & w1 & H). exists ret, w1.
  exact (conj H (hook_declines _ _ _ _ H)).
Defined.

(** X7.  Whatever calls the host makes, the hooks leave the request graph as it
    is (the same requests with the same [main], [prev] and [next]) and only
    append to the log; so a well-formed graph stays well formed and every
    request resolves to the same first and last request as before. *)
Theorem hooks_preserve_graph cs w u w1 :
  run_hooks cs w = inr (u, w1) →
  link_map (requests w1) = link_map (requests w)
  ∧ (∃ lg, log w1 = log w ++ lg)
  ∧ (chain_graph (requests w) → chain_graph (requests w1))
  ∧ (∀ fuel r a w', resolve_first fuel r w = inr (a, w') →
                    resolve_first fuel r w1 = inr (a, w1))
  ∧ (∀ fuel r l w', resolve_last fuel r w = inr (l, w') →
                    resolve_last fuel r w1 = inr (l, w1)).
Proof.
  intros (E & L & _ & _)%run_hooks_steps.
  split; [done|]. split; [done|].
  split; [by apply chain_graph_link_map|].
  destruct w as [h lg], w1 as [h1 lg1]. simpl in E.
  split; intros; [by eapply resolve_first_link_map|by eapply resolve_last_link_map].
Qed.

Lemma hooks_preserve_graph_witness :
  ∃ w1,
    run_hooks [CallStart 3 (AccData (Timeval 7 7) rusage_zero rusage_zero 9)
                 (Syscalls (Some (Timeval 1000 0)) None (Some rusage_zero))
                 3%positive;
               CallStop 3 (Locals timeval_zero rusage_zero rusage_zero)
                 (Syscalls (Some (Timeval 1002 250000)) (Some rusage_zero) None)
                 2%positive] chain3 = inr (tt, w1)
    ∧ link_map (requests w1) = link_map (requests chain3)
    ∧ ∃ lg, log w1 = log chain3 ++ lg.
Proof.
  eexists. split; [vm_compute; reflexivity|].
  match goal with
  | |- link_map (requests ?w1) = _ ∧ _ =>
      destruct (hooks_preserve_graph
                  [CallStart 3 (AccData (Timeval 7 7) rusage_zero rusage_zero 9)
                     (Syscalls (Some (Timeval 1000 0)) None (Some rusage_zero))
                     3%positive;
                   CallStop 3 (Locals timeval_zero rusage_zero rusage_zero)
                     (Syscalls (Some (Timeval 1002 250000)) (Some rusage_zero) None)
                     2%positive] chain3 tt w1) as (E & L & _)
  end; [vm_compute; reflexivity|].
  exact (conj E L).
Defined.

(** X8.  The reserved key is written once: a value found under
    ["ACC_INTERNAL"] on any request is still there, unchanged, after any
    sequence of start and stop calls on any requests. *)
Theorem hooks_keep_snapshot cs w u w1 p r v :
  run_hooks cs w = inr (u, w1) →
  requests w !! p = Some r →
  notes r !! notes_key_internal = Some v →
  ∃ r1, requests w1 !! p = Some r1 ∧ notes r1 !! notes_key_internal = Some v.
Proof.
  intros (_ & _ & K & _)%run_hooks_steps Hp Hv. by apply (K p r v).
Qed.

Lemma hooks_keep_snapshot_witness :
  ∃ w1 r1,
    run_hooks [CallStart 3 (AccData (Timeval 7 7) rusage_zero rusage_zero 9)
                 (Syscalls (Some (Timeval 2000 0)) None None) 3%positive;
               CallStop 3 (Locals timeval_zero rusage_zero rusage_zero)
                 (Syscalls (Some (Timeval 1002 250000)) (Some rusage_zero) None)
                 2%positive;
               CallStart 3 (AccData (Timeval 7 7) rusage_zero rusage_zero 9)
                 (Syscalls (Some (Timeval 3000 0)) None None) 1%positive]
      chain3_started = inr (tt, w1)
    ∧ requests w1 !! 1%positive = Some r1
    ∧ notes r1 !! notes_key_internal
      = Some (NoteData (AccData (Timeval 1000 0) rusage_zero rusage_zero 0)).
Proof.
  assert (H : ∃ w1,
    run_hooks [CallStart 3 (AccData (Timeval 7 7) rusage_zero rusage_zero 9)
                 (Syscalls (Some (Timeval 2000 0)) None None) 3%positive;
               CallStop 3 (Locals timeval_zero rusage_zero rusage_zero)
                 (Syscalls (Some (Timeval 1002 250000)) (Some rusage_zero) None)
                 2%positive;
               CallStart 3 (AccData (Timeval 7 7) rusage_zero rusage_zero 9)
                 (Syscalls (Some (Timeval 3000 0)) None None) 1%positive]
      chain3_started = inr (tt, w1)) by (eexists; vm_compute; reflexivity).
  destruct H as [w1 H].
  destruct (hooks_keep_snapshot _ _ _ _ 1%positive
              (RequestRec None None (Some 2%positive)
                 (<[notes_key_internal :=
                      NoteData (AccData (Timeval 1000 0) rusage_zero rusage_zero 0)]> ∅))
              (NoteData (AccData (Timeval 1000 0) rusage_zero rusage_zero 0))
              H) as (r1 & Hp & Hv); [vm_compute; reflexivity..|].
  exists w1, r1. exact (conj H (conj Hp Hv)).
Defined.

Lemma chain3_typed : snapshots_typed (requests chain3).
Proof. intros p r v H Hv. chain3_cases H; simplify_eq/=. Qed.

(** X9.  On a well-formed request graph in which the reserved key, where
    present, holds an [acc_data] block, no sequence of start and stop calls
    on existing requests leaves the model: every call returns (neither a
    dangling pointer nor an endless walk nor a misread note occurs), and
    both conditions hold again afterwards. *)
Theorem hooks_never_fault cs w :
  chain_graph (requests w) →
  snapshots_typed (requests w) →
  Forall (call_ok w) cs →
  ∃ w1, run_hooks cs w = inr (tt, w1)
        ∧ chain_graph (requests w1)
        ∧ snapshots_typed (requests w1).
Proof.
  revert w. induction cs as [|c cs IH]; intros w Hg Ht Hok.
  - exists w. split; [reflexivity|done].
  - apply Forall_cons in Hok as [[Hr Hsz] Hrest].
    assert (∃ w0, run_hook c w = inr (DECLINED, w0)) as [w0 H0].
    { destruct c; simpl in *; [by apply start_total|by apply stop_total]. }
    pose proof (run_hook_step _ _ _ _ H0) as (_ & E & _ & _ & T).
    destruct (IH w0) as (w1 & H1 & Hg1 & Ht1).
    + by eapply chain_graph_link_map.
    + by apply T.
    + eapply Forall_impl; [exact Hrest|].
      intros c'. by apply call_ok_link_map.
    + exists w1. split; [|done]. simpl. by rewrite (bind_inr _ _ _ _ _ H0).
Qed.

Lemma hooks_never_fault_witness :
  ∃ w1,
    run_hooks [CallStop 4 (Locals timeval_zero rusage_zero rusage_zero)
                 (Syscalls None None None) 1%positive;
               CallStart 4 (AccData (Timeval 7 7) rusage_zero rusage_zero 9)
                 (Syscalls (Some (Timeval 1000 0)) None (Some rusage_zero))
                 3%positive;
               CallStop 4 (Locals timeval_zero rusage_zero rusage_zero)
                 (Syscalls (Some (Timeval 1002 250000)) (Some rusage_zero) None)
                 2%positive] chain3 = inr (tt, w1)
    ∧ chain_graph (requests w1)
    ∧ snapshots_typed (requests w1).
Proof.
  apply (hooks_never_fault _ chain3 chain3_graph chain3_typed).
  repeat apply Forall_cons_2; try apply Forall_nil_2;
    (split; [by eexists|vm_compute; lia]).
Defined.

(** ** The request matters through its chain ends only *)

Lemma resolve_first_sub fuel x rx m w a w' :
  requests w !! x = Some rx → main rx = Some m →
  resolve_first fuel m w = inr (a, w') →
  resolve_first (S fuel) x w = inr (a, w).
Proof.
  intros Hx Hm (-> & top & H1 & H2)%resolve_first_inv.
  eapply resolve_first_run.
  - by rewrite (while_follow_step _ _ _ _ _ _ Hx Hm).
  - eapply while_follow_mono; [|exact H2]. lia.
Qed.

Lemma resolve_last_sub fuel x rx m w l w' :
  requests w !! x = Some rx → main rx = Some m →
  resolve_last fuel m w = inr (l, w') →
  resolve_last (S fuel) x w = inr (l, w).
Proof.
  intros Hx Hm (-> & top & H1 & H2)%resolve_last_inv.
  eapply resolve_last_run.
  - by rewrite (while_follow_step _ _ _ _ _ _ Hx Hm).
  - eapply while_follow_mono; [|exact H2]. lia.
Qed.

(** X10.  Two requests that resolve to the same first request get the same
    start, and, when they also resolve to the same last request, the same
    stop: result, notes and log are identical whichever request of the
    chain the host passes. *)
Theorem hook_by_chain_ends fuel fuel' r r' w a w1 w2 :
  resolve_first fuel r w = inr (a, w1) →
  resolve_first fuel' r' w = inr (a, w2) →
  (∀ fresh sys,
     module_accounting_start fuel fresh sys r w
     = module_accounting_start fuel' fresh sys r' w)
  ∧ (∀ l w3 w4 frame sys,
       resolve_last fuel r w = inr (l, w3) →
       resolve_last fuel' r' w = inr (l, w4) →
       module_accounting_stop fuel frame sys r w
       = module_accounting_stop fuel' frame sys r' w).
Proof.
  intros Hf Hf'. split.
  - intros fresh sys. by eapply start_by_first.
  - intros l w3 w4 frame sys Hl Hl'. by eapply stop_by_ends.
Qed.

Lemma hook_by_chain_ends_witness :
  module_accounting_stop 3 (Locals timeval_zero rusage_zero rusage_zero)
    (Syscalls (Some (Timeval 1002 250000)) None None) 1%positive chain3_started
  = module_accounting_stop 5 (Locals timeval_zero rusage_zero rusage_zero)
      (Syscalls (Some (Timeval 1002 250000)) None None) 3%positive chain3_started.
Proof.
  refine (proj2 (hook_by_chain_ends 3 5 1%positive 3%positive chain3_started
                   1%positive chain3_started chain3_started _ _)
            3%positive chain3_started chain3_started _ _ _ _);
    vm_compute; reflexivity.
Defined.

(** X12.  A sub-request is accounted for on its main request: whatever a hook
    returns for the main request, it returns for the sub-request (one more
    step of the walk up). *)
Theorem hook_on_subrequest x rx m w :
  requests w !! x = Some rx →
  main rx = Some m →
  (∀ fuel fresh sys res,
     module_accounting_start fuel fresh sys m w = inr res →
     module_accounting_start (S fuel) fresh sys x w = inr res)
  ∧ (∀ fuel frame sys res,
       module_accounting_stop fuel frame sys m w = inr res →
       module_accounting_stop (S fuel) frame sys x w = inr res).
Proof.
  intros Hx Hm. split.
  - intros fuel fresh sys [ret w1] H.
    pose proof H as (a & ra & Hf & _)%start_cases.
    pose proof (resolve_first_sub _ _ _ _ _ _ _ Hx Hm Hf) as Hf'.
    by rewrite <- (start_by_first _ _ fresh sys _ _ _ _ _ _ Hf Hf').
  - intros fuel frame sys [ret w1] H.
    pose proof H as (a & l & ra & rl & Hf & Hl & _)%stop_cases.
    pose proof (resolve_first_sub _ _ _ _ _ _ _ Hx Hm Hf) as Hf'.
    pose proof (resolve_last_sub _ _ _ _ _ _ _ Hx Hm Hl) as Hl'.
    by rewrite <- (stop_by_ends _ _ frame sys _ _ _ _ _ _ _ _ _ Hf Hl Hf' Hl').
Qed.

Lemma hook_on_subrequest_witness :
  ∃ res,
    module_accounting_stop 3 (Locals timeval_zero rusage_zero rusage_zero)
      (Syscalls (Some (Timeval 1002 250000)) None None) 2%positive chain3_sub
    = inr res
    ∧ module_accounting_stop 4 (Locals timeval_zero rusage_zero rusage_zero)
        (Syscalls (Some (Timeval 1002 250000)) None None) 4%positive chain3_sub
      = inr res.
Proof.
  assert (H : ∃ res,
    module_accounting_stop 3 (Locals timeval_zero rusage_zero rusage_zero)
      (Syscalls (Some (Timeval 1002 250000)) None None) 2%positive chain3_sub
    = inr res) by (eexists; vm_compute; reflexivity).
  destruct H as [res H]. exists res. split; [exact H|].
  refine (proj2 (hook_on_subrequest 4%positive
                   (RequestRec (Some 2%positive) None None ∅) 2%positive
                   chain3_sub _ _) _ _ _ _ H); vm_compute; reflexivity.
Defined.

(** ** What the hooks write *)

(** X13.  A returned [module_accounting_start] has written at most one note: the
    reserved key of the first request of the chain, which is present
    afterwards.  Every other key of that request, its links, and every
    other request are as before. *)
Theorem start_frame fuel fresh sys r w ret w1 :
  module_accounting_start fuel fresh sys r w = inr (ret, w1) →
  ∃ a ra ra1,
    resolve_first fuel r w = inr (a, w)
    ∧ requests w !! a = Some ra
    ∧ requests w1 !! a = Some ra1
    ∧ is_Some (notes ra1 !! notes_key_internal)
    ∧ links ra1 = links ra
    ∧ (∀ k, k ≠ notes_key_internal → notes ra1 !! k = notes ra !! k)
    ∧ (∀ p, p ≠ a → requests w1 !! p = requests w !! p).
Proof.
  intros (a & ra & Hf & Ha & _ & [[Hs ->]|[Hn ->]])%start_cases.
  - by exists a, ra, ra.
  - eexists a, ra, _. split; [done|]. split; [done|]. simpl.
    split; [apply lookup_insert_eq|]. simpl.
    split; [rewrite lookup_insert_eq; by eexists|].
    split; [done|]. split.
    + intros k Hk. by rewrite lookup_insert_ne.
    + intros p Hp. by rewrite lookup_insert_ne.
Qed.

Lemma start_frame_witness :
  ∃ w1 a ra ra1,
    module_accounting_start 3 (AccData (Timeval 7 7) rusage_zero rusage_zero 9)
      (Syscalls (Some (Timeval 1000 0)) None None) 3%positive chain3
    = inr (DECLINED, w1)
    ∧ resolve_first 3 3%positive chain3 = inr (a, chain3)
    ∧ requests chain3 !! a = Some ra
    ∧ requests w1 !! a = Some ra1
    ∧ is_Some (notes ra1 !! notes_key_internal)
    ∧ links ra1 = links ra
    ∧ (∀ k, k ≠ notes_key_internal → notes ra1 !! k = notes ra !! k)
    ∧ (∀ p, p ≠ a → requests w1 !! p = requests chain3 !! p).
Proof.
  assert (H : ∃ w1,
    module_accounting_start 3 (AccData (Timeval 7 7) rusage_zero rusage_zero 9)
      (Syscalls (Some (Timeval 1000 0)) None None) 3%positive chain3
    = inr (DECLINED, w1)) by (eexists; vm_compute; reflexivity).
  destruct H as [w1 H]. exists w1.
  destruct (start_frame _ _ _ _ _ _ _ H) as (a & ra & ra1 & Hrest).
  exists a, ra, ra1. exact (conj H Hrest).
Defined.

Lemma anomalies_time_log b e : anomalies (time_log b e) = time_anomaly b e.
Proof.
  unfold time_log, time_difference, time_anomaly.
  by destruct (timetravel b e).
Qed.

Lemma anomalies_block_log b e : anomalies (block_log b e) = block_anomaly b e.
Proof.
  unfold block_log, block_difference, block_anomaly.
  by destruct (b >? e).
Qed.

Lemma anomalies_stop_errors sys : anomalies (stop_errors sys) = stop_errors sys.
Proof.
  unfold stop_errors.
  by destruct (gettimeofday sys), (getrusage_self sys), (getrusage_children sys).
Qed.

Lemma anomalies_delta_log data l :
  anomalies (delta_log data l) = delta_anomalies data l.
Proof.
  unfold delta_log, delta_anomalies.
  by rewrite !anomalies_app, !anomalies_time_log, !anomalies_block_log.
Qed.

(** X14.  With the reference values in place, the errors that
    [module_accounting_stop] adds to the log are, in this order: one per
    failed query, then one per compared pair that runs backwards
    ("Timetraveling" for a time, "Negative blockcount" for a counter), and
    nothing else; the debug block contributes no error. *)
Theorem stop_anomalies fuel frame sys r w first w' last w'' rf data :
  resolve_first fuel r w = inr (first, w') →
  resolve_last fuel r w = inr (last, w'') →
  requests w !! first = Some rf →
  notes rf !! notes_key_internal = Some (NoteData data) →
  ∃ w1,
    module_accounting_stop fuel frame sys r w = inr (DECLINED, w1)
    ∧ anomalies (log w1)
      = anomalies (log w) ++ stop_errors sys
        ++ delta_anomalies data (sample frame sys).
Proof.
  intros Hf Hl Hrf Hd.
  pose proof Hl as (_ & top & _ & Hw)%resolve_last_inv.
  apply while_follow_end in Hw as (rl & Hrl & _).
  destruct (stop_present _ frame sys _ _ _ _ _ _ _ _ _ Hf Hl Hrf Hd Hrl)
    as (dbg & Hdbg & Hstop).
  eexists. split; [exact Hstop|]. simpl.
  by rewrite !anomalies_app, Hdbg, anomalies_stop_errors, anomalies_delta_log.
Qed.

Lemma stop_anomalies_witness :
  ∃ w1,
    module_accounting_stop 3
      (Locals timeval_zero (Rusage timeval_zero timeval_zero 0 0) rusage_zero)
      (Syscalls (Some (Timeval 999 0)) None (Some rusage_zero))
      2%positive chain3_started = inr (DECLINED, w1)
    ∧ anomalies (log w1)
      = [(APLOG_ERR, MsgText "Request for (end) resource usage failed");
         (APLOG_ERR, MsgTimetraveling (Timeval 1000 0) (Timeval 999 0))].
Proof.
  refine (stop_anomalies 3
            (Locals timeval_zero (Rusage timeval_zero timeval_zero 0 0) rusage_zero)
            (Syscalls (Some (Timeval 999 0)) None (Some rusage_zero))
            2%positive chain3_started 1%positive chain3_started
            3%positive chain3_started
            (RequestRec None None (Some 2%positive)
               (<[notes_key_internal :=
                    NoteData (AccData (Timeval 1000 0) rusage_zero rusage_zero 0)]> ∅))
            (AccData (Timeval 1000 0) rusage_zero rusage_zero 0)
            _ _ _ _); vm_compute; reflexivity.
Defined.

Ltac metric_lookup :=
  unfold publish; repeat (rewrite lookup_insert_ne by key_ne);
  by rewrite lookup_insert_eq.

(** X15.  With the reference values in place, each of the nine keys holds, after
    [module_accounting_stop], the decimal text of its own delta: wall-clock
    time under ["ACC_time"], own user and system time under ["ACC_utime"]
    and ["ACC_stime"], own input and output blocks under ["ACC_inblock"]
    and ["ACC_oublock"], and the children's four under ["ACC_cutime"],
    ["ACC_cstime"], ["ACC_cinblock"], ["ACC_coublock"]; each computed from
    the stored snapshot and the values sampled by this call. *)
Theorem stop_metric_values fuel frame sys r w first w' last w'' rf data :
  resolve_first fuel r w = inr (first, w') →
  resolve_last fuel r w = inr (last, w'') →
  requests w !! first = Some rf →
  notes rf !! notes_key_internal = Some (NoteData data) →
  ∃ w1 rl1,
    module_accounting_stop fuel frame sys r w = inr (DECLINED, w1)
    ∧ requests w1 !! last = Some rl1
    ∧ notes rl1 !! notes_key_time
      = Some (NoteText (fmt_ld (fst (time_difference
          (begin_time data) (end_time (sample frame sys)) []))))
    ∧ notes rl1 !! notes_key_utime
      = Some (NoteText (fmt_ld (fst (time_difference
          (ru_utime (begin_own_usage data))
          (ru_utime (end_own_usage (sample frame sys))) []))))
    ∧ notes rl1 !! notes_key_stime
      = Some (NoteText (fmt_ld (fst (time_difference
          (ru_stime (begin_own_usage data))
          (ru_stime (end_own_usage (sample frame sys))) []))))
    ∧ notes rl1 !! notes_key_inblock
      = Some (NoteText (fmt_ld (fst (block_difference
          (ru_inblock (begin_own_usage data))
          (ru_inblock (end_own_usage (sample frame sys))) []))))
    ∧ notes rl1 !! notes_key_oublock
      = Some (NoteText (fmt_ld (fst (block_difference
          (ru_oublock (begin_own_usage data))
          (ru_oublock (end_own_usage (sample frame sys))) []))))
    ∧ notes rl1 !! notes_key_cutime
      = Some (NoteText (fmt_ld (fst (time_difference
          (ru_utime (begin_child_usage data))
          (ru_utime (end_child_usage (sample frame sys))) []))))
    ∧ notes rl1 !! notes_key_cstime
      = Some (NoteText (fmt_ld (fst (time_difference
          (ru_stime (begin_child_usage data))
          (ru_stime (end_child_usage (sample frame sys))) []))))
    ∧ notes rl1 !! notes_key_cinblock
      = Some (NoteText (fmt_ld (fst (block_difference
          (ru_inblock (begin_child_usage data))
          (ru_inblock (end_child_usage (sample frame sys))) []))))
    ∧ notes rl1 !! notes_key_coublock
      = Some (NoteText (fmt_ld (fst (block_difference
          (ru_oublock (begin_child_usage data))
          (ru_oublock (end_child_usage (sample frame sys))) [])))).
Proof.
  intros Hf Hl Hrf Hd.
  pose proof Hl as (_ & top & _ & Hw)%resolve_last_inv.
  apply while_follow_end in Hw as (rl & Hrl & _).
  destruct (stop_present _ frame sys _ _ _ _ _ _ _ _ _ Hf Hl Hrf Hd Hrl)
    as (dbg & _ & Hstop).
  eexists _, _. split; [exact Hstop|]. simpl.
  split; [apply lookup_insert_eq|]. simpl.
  fold (time_delta (begin_time data) (end_time (sample frame sys))).
  repeat split; metric_lookup.
Qed.

Lemma stop_metric_values_witness :
  ∃ w1 rl1,
    module_accounting_stop 3 (Locals timeval_zero rusage_zero rusage_zero)
      (Syscalls (Some (Timeval 1002 250000))
                (Some (Rusage (Timeval 0 900000) timeval_zero 30 0)) None)
      2%positive chain3_started = inr (DECLINED, w1)
    ∧ requests w1 !! 3%positive = Some rl1
    ∧ notes rl1 !! notes_key_time = Some (NoteText "2250000")
    ∧ notes rl1 !! notes_key_utime = Some (NoteText "900000").
Proof.
  destruct (stop_metric_values 3 (Locals timeval_zero rusage_zero rusage_zero)
              (Syscalls (Some (Timeval 1002 250000))
                        (Some (Rusage (Timeval 0 900000) timeval_zero 30 0)) None)
              2%positive chain3_started 1%positive chain3_started
              3%positive chain3_started
              (RequestRec None None (Some 2%positive)
                 (<[notes_key_internal :=
                      NoteData (AccData (Timeval 1000 0) rusage_zero rusage_zero 0)]> ∅))
              (AccData (Timeval 1000 0) rusage_zero rusage_zero 0))
    as (w1 & rl1 & H & Hl & Ht & Hu & _); [vm_compute; reflexivity..|].
  exists w1, rl1. exact (conj H (conj Hl (conj Ht Hu))).
Defined.

(** ** Start and stop together *)

(** X16.  On any chain without reference values: a start on a request of the
    chain followed by a stop on a request of the same chain publishes, on
    the last request, the nine deltas between what the start sampled and
    what the stop sampled; the snapshot stays under the reserved key of the
    first request. *)
Theorem start_then_stop fuel fresh sys1 r fuel' frame sys2 r' w
    first w' w'' last w''' rf :
  resolve_first fuel r w = inr (first, w') →
  requests w !! first = Some rf →
  notes rf !! notes_key_internal = None →
  resolve_first fuel' r' w = inr (first, w'') →
  resolve_last fuel' r' w = inr (last, w''') →
  ∃ w1 w2 rl1,
    module_accounting_start fuel fresh sys1 r w = inr (DECLINED, w1)
    ∧ module_accounting_stop fuel' frame sys2 r' w1 = inr (DECLINED, w2)
    ∧ requests w1 !! last = Some rl1
    ∧ requests w2
      = <[last := with_notes rl1
                    (publish (capture fresh sys1) (sample frame sys2)
                       (notes rl1))]> (requests w1)
    ∧ ∃ rf2, requests w2 !! first = Some rf2
             ∧ notes rf2 !! notes_key_internal
               = Some (NoteData (capture fresh sys1)).
Proof.
  intros Hf Hrf Hn Hf' Hl'.
  pose proof (start_fresh _ fresh sys1 _ _ _ _ _ Hf Hrf Hn) as Hstart.
  destruct w as [h lg]. simpl in *.
  set (n1 := <[notes_key_internal := NoteData (capture fresh sys1)]> (notes rf))
    in *.
  set (lg1 := lg ++ _) in Hstart.
  pose proof (resolve_first_with_notes _ _ _ _ first rf n1 lg1 _ _ Hrf Hf') as Hf1.
  pose proof (resolve_last_with_notes _ _ _ _ first rf n1 lg1 _ _ Hrf Hl') as Hl1.
  pose proof Hl' as (_ & top & _ & Hw)%resolve_last_inv.
  apply while_follow_end in Hw as (rl & Hrl & _). simpl in Hrl.
  assert (∃ rl1, <[first := with_notes rf n1]> h !! last = Some rl1)
    as [rl1 Hrl1].
  { destruct (decide (first = last)) as [->|Hne].
    - rewrite lookup_insert_eq. eauto.
    - rewrite lookup_insert_ne by done. eauto. }
  destruct (stop_present _ frame sys2 _ _ _ _ _ _ (with_notes rf n1)
              (capture fresh sys1) rl1 Hf1 Hl1) as (dbg & _ & Hstop).
  { apply lookup_insert_eq. }
  { apply lookup_insert_eq. }
  { exact Hrl1. }
  eexists _, _, rl1. split; [exact Hstart|]. split; [exact Hstop|]. simpl.
  split; [exact Hrl1|]. split; [reflexivity|].
  destruct (decide (last = first)) as [->|Hne].
  - rewrite lookup_insert_eq. eexists. split; [done|]. simpl.
    rewrite publish_lookup_other by apply notes_key_internal_not_metric.
    rewrite lookup_insert_eq in Hrl1. injection Hrl1 as <-.
    apply lookup_insert_eq.
  - rewrite lookup_insert_ne, lookup_insert_eq by done.
    eexists. split; [done|]. apply lookup_insert_eq.
Qed.

(** A single request that is its own first and last. *)
Lemma start_then_stop_witness :
  ∃ w1 w2 rl1,
    module_accounting_start 1 (AccData (Timeval 7 7) rusage_zero rusage_zero 9)
      (Syscalls (Some (Timeval 1000 0)) (Some rusage_zero) (Some rusage_zero))
      1%positive (World {[ 1%positive := RequestRec None None None ∅ ]} [])
    = inr (DECLINED, w1)
    ∧ module_accounting_stop 1 (Locals timeval_zero rusage_zero rusage_zero)
        (Syscalls (Some (Timeval 1002 250000)) (Some rusage_zero)
                  (Some rusage_zero)) 1%positive w1
      = inr (DECLINED, w2)
    ∧ requests w1 !! 1%positive = Some rl1
    ∧ (requests w2 !! 1%positive ≫= λ r, notes r !! notes_key_time)
      = Some (NoteText "2250000").
Proof.
  destruct (start_then_stop 1 (AccData (Timeval 7 7) rusage_zero rusage_zero 9)
              (Syscalls (Some (Timeval 1000 0)) (Some rusage_zero)
                        (Some rusage_zero))
              1%positive 1 (Locals timeval_zero rusage_zero rusage_zero)
              (Syscalls (Some (Timeval 1002 250000)) (Some rusage_zero)
                        (Some rusage_zero))
              1%positive (World {[ 1%positive := RequestRec None None None ∅ ]} [])
              1%positive
              (World {[ 1%positive := RequestRec None None None ∅ ]} [])
              (World {[ 1%positive := RequestRec None None None ∅ ]} [])
              1%positive
              (World {[ 1%positive := RequestRec None None None ∅ ]} [])
              (RequestRec None None None ∅))
    as (w1 & w2 & rl1 & H1 & H2 & Hl & E2 & _); [vm_compute; reflexivity..|].
  exists w1, w2, rl1. split; [exact H1|]. split; [exact H2|].
  split; [exact Hl|].
  rewrite E2, lookup_insert_eq. simpl. unfold publish.
  repeat (rewrite lookup_insert_ne by key_ne). rewrite lookup_insert_eq.
  reflexivity.
Defined.

Lemma publish_publish data l data' l' n :
  publish data l (publish data' l' n) = publish data l n.
Proof.
  apply map_eq. intros k.
  set (m := publish data' l' n).
  unfold publish. rewrite !lookup_insert.
  repeat (case_decide; [done|]).
  unfold m. apply publish_lookup_other.
  unfold metric_keys. rewrite !not_elem_of_cons.
  repeat split; try (apply not_eq_sym; assumption). apply not_elem_of_nil.
Qed.

(** X17.  A later stop replaces the metrics of an earlier one completely: after
    two stops on the same request the notes are what the second stop alone
    would have left. *)
Theorem stop_overwrites fuel frame sys frame2 sys2 r w first w' last w'' rf
    data rl :
  resolve_first fuel r w = inr (first, w') →
  resolve_last fuel r w = inr (last, w'') →
  requests w !! first = Some rf →
  notes rf !! notes_key_internal = Some (NoteData data) →
  requests w !! last = Some rl →
  ∃ w1 w2 only2,
    module_accounting_stop fuel frame sys r w = inr (DECLINED, w1)
    ∧ module_accounting_stop fuel frame2 sys2 r w1 = inr (DECLINED, w2)
    ∧ module_accounting_stop fuel frame2 sys2 r w = inr (DECLINED, only2)
    ∧ requests w2 = requests only2
    ∧ requests w2
      = <[last := with_notes rl (publish data (sample frame2 sys2) (notes rl))]>
          (requests w).
Proof.
  intros Hf Hl Hrf Hd Hrl.
  destruct (stop_present _ frame sys _ _ _ _ _ _ _ _ _ Hf Hl Hrf Hd Hrl)
    as (dbg & _ & Hstop).
  destruct (stop_present _ frame2 sys2 _ _ _ _ _ _ _ _ _ Hf Hl Hrf Hd Hrl)
    as (dbg' & _ & Honly).
  destruct w as [h lg]. simpl in *.
  set (n1 := publish data (sample frame sys) (notes rl)) in *.
  set (lg1 := lg ++ _) in Hstop.
  pose proof (resolve_first_with_notes _ _ _ _ last rl n1 lg1 _ _ Hrl Hf) as Hf1.
  pose proof (resolve_last_with_notes _ _ _ _ last rl n1 lg1 _ _ Hrl Hl) as Hl1.
  assert (∃ rf1, <[last := with_notes rl n1]> h !! first = Some rf1
            ∧ notes rf1 !! notes_key_internal = Some (NoteData data))
    as (rf1 & Hrf1 & Hd1).
  { destruct (decide (last = first)) as [->|Hne].
    - rewrite lookup_insert_eq. eexists. split; [done|]. simpl.
      assert (rl = rf) as -> by congruence.
      unfold n1. by rewrite publish_lookup_other
        by apply notes_key_internal_not_metric.
    - rewrite lookup_insert_ne by done. by exists rf. }
  destruct (stop_present _ frame2 sys2 _ _ _ _ _ _ rf1 data (with_notes rl n1)
              Hf1 Hl1 Hrf1 Hd1) as (dbg2 & _ & Hstop2).
  { apply lookup_insert_eq. }
  eexists _, _, _. split; [exact Hstop|]. split; [exact Hstop2|].
  split; [exact Honly|]. simpl.
  rewrite insert_insert_eq. unfold n1. by rewrite publish_publish.
Qed.

Lemma stop_overwrites_witness :
  ∃ w1 w2 only2,
    module_accounting_stop 3 (Locals timeval_zero rusage_zero rusage_zero)
      (Syscalls (Some (Timeval 1002 250000)) (Some rusage_zero) None)
      2%positive chain3_started = inr (DECLINED, w1)
    ∧ module_accounting_stop 3 (Locals timeval_zero rusage_zero rusage_zero)
        (Syscalls (Some (Timeval 1005 0)) None None) 2%positive w1
      = inr (DECLINED, w2)
    ∧ module_accounting_stop 3 (Locals timeval_zero rusage_zero rusage_zero)
        (Syscalls (Some (Timeval 1005 0)) None None) 2%positive chain3_started
      = inr (DECLINED, only2)
    ∧ requests w2 = requests only2.
Proof.
  destruct (stop_overwrites 3 (Locals timeval_zero rusage_zero rusage_zero)
              (Syscalls (Some (Timeval 1002 250000)) (Some rusage_zero) None)
              (Locals timeval_zero rusage_zero rusage_zero)
              (Syscalls (Some (Timeval 1005 0)) None None)
              2%positive chain3_started 1%positive chain3_started
              3%positive chain3_started
              (RequestRec None None (Some 2%positive)
                 (<[notes_key_internal :=
                      NoteData (AccData (Timeval 1000 0) rusage_zero rusage_zero 0)]> ∅))
              (AccData (Timeval 1000 0) rusage_zero rusage_zero 0)
              (RequestRec None (Some 2%positive) None ∅))
    as (w1 & w2 & only2 & H1 & H2 & H3 & E & _); [vm_compute; reflexivity..|].
  exists w1, w2, only2. exact (conj H1 (conj H2 (conj H3 E))).
Defined.

(** ** Small instances of the two statements without hypotheses *)

Lemma timetravel_strict_total_order_witness :
  timetravel (Timeval 5 999999) (Timeval 6 0) = false.
Proof.
  exact (proj1 timetravel_strict_total_order (Timeval 6 0) (Timeval 5 999999)
           eq_refl).
Defined.

Lemma while_follow_spec_witness :
  ∃ fuel, while_follow fuel prev 3%positive chain3 = inr (1%positive, chain3).
Proof.
  apply (proj2 (while_follow_spec prev 3%positive 1%positive chain3)).
  split.
  - eapply rtc_l; [eexists; split; vm_compute; reflexivity|].
    eapply rtc_l; [eexists; split; vm_compute; reflexivity|].
    apply rtc_refl.
  - eexists. split; vm_compute; reflexivity.
Defined.
